(** * open-cli-mcp: the command proxy of [server.py], embedded and verified

    The development follows [src/server.py]:
    - [PyStr]: the string methods of Python the server calls
      ([str.strip], [str.split], the [in] test on strings, the formatting of
      an [int] and of a list of names inside an f-string);
    - [Py]: Python values (the dictionaries the server builds and the values
      [json.loads] returns), exceptions, and the monad in which an operation
      runs: it may raise, and it extends the history of subprocess calls;
    - [Server]: [CLI_CONFIG], [run_cli] and the exposed operations;
    - [Fixtures]: concrete hosts on which the operations are evaluated;
    - [Observe]: what the properties read off a result or a history;
    - the properties of the specification, one theorem per claim, and their
      runs on the concrete hosts.

    A Python [str] is modelled as a [string] whose characters are the code
    points below 256. *)

From Stdlib Require Import String Ascii List ZArith Lia Bool DecimalString Floats.
Import ListNotations.
Open Scope string_scope.
Set Warnings "-register-all".

(* ===================================================================== *)
(** * Python strings *)
(* ===================================================================== *)

Module PyStr.

(** [str.isspace] on one character: the code points below 256 that Python
    treats as whitespace (TAB..CR, FS..US, SPACE, NEL, NBSP). *)
Definition isspace (c : ascii) : bool :=
  let n := nat_of_ascii c in
  ((9 <=? n)%nat && (n <=? 13)%nat) || ((28 <=? n)%nat && (n <=? 32)%nat)
  || (n =? 133)%nat || (n =? 160)%nat.

Definition is_empty (s : string) : bool :=
  match s with EmptyString => true | String _ _ => false end.

(** [s.lstrip()] *)
Fixpoint lstrip (s : string) : string :=
  match s with
  | EmptyString => EmptyString
  | String c s' => if isspace c then lstrip s' else s
  end.

(** [s.rstrip()] *)
Fixpoint rstrip (s : string) : string :=
  match s with
  | EmptyString => EmptyString
  | String c s' =>
      let r := rstrip s' in
      if isspace c && is_empty r then EmptyString else String c r
  end.

(** [s.strip()] *)
Definition strip (s : string) : string := rstrip (lstrip s).

(** The character [c] appended to the token being read. *)
Definition snoc (tok : string) (c : ascii) : string :=
  tok ++ String c EmptyString.

(** [s.split()] with no separator: runs of whitespace separate the tokens,
    and no token is empty.  [tok] is the token read so far. *)
Fixpoint split_from (tok : string) (s : string) : list string :=
  match s with
  | EmptyString => if is_empty tok then [] else [tok]
  | String c s' =>
      if isspace c
      then (if is_empty tok then split_from EmptyString s'
            else tok :: split_from EmptyString s')
      else split_from (snoc tok c) s'
  end.

Definition split (s : string) : list string := split_from EmptyString s.

(** Some character of [s] is whitespace. *)
Definition has_space (s : string) : bool :=
  existsb isspace (list_ascii_of_string s).

(** [s.split(sep)] for a separator of one character: every occurrence
    separates, so the result has one more field than [s] has separators. *)
Fixpoint split_sep_from (sep : ascii) (field : string) (s : string) : list string :=
  match s with
  | EmptyString => [field]
  | String c s' =>
      if Ascii.eqb c sep
      then field :: split_sep_from sep EmptyString s'
      else split_sep_from sep (snoc field c) s'
  end.

Definition split_sep (sep : ascii) (s : string) : list string :=
  split_sep_from sep EmptyString s.

(** [sub in s] on strings. *)
Fixpoint contains (sub s : string) : bool :=
  String.prefix sub s
  || match s with
     | EmptyString => false
     | String _ s' => contains sub s'
     end.

(** [str(n)] for an [int], as an f-string formats it. *)
Definition str_of_int (n : Z) : string := NilZero.string_of_int (Z.to_int n).

(** [sep.join(l)] *)
Fixpoint join (sep : string) (l : list string) : string :=
  match l with
  | [] => EmptyString
  | [x] => x
  | x :: rest => x ++ sep ++ join sep rest
  end.

(** [repr(s)] for a string with no quote, backslash or unprintable
    character, which is what the keys of [CLI_CONFIG] are. *)
Definition repr_plain (s : string) : string := "'" ++ s ++ "'".

(** [str(l)] for a list of such strings, as an f-string formats it. *)
Definition str_of_list (l : list string) : string :=
  "[" ++ join ", " (map repr_plain l) ++ "]".

(** The double quote character, as a string. *)
Definition dquote : string := String "034"%char EmptyString.

End PyStr.

Import PyStr.

(* ===================================================================== *)
(** * Python values, exceptions and effects *)
(* ===================================================================== *)

Module Py.

(** The values the server handles: what [json.loads] returns and what the
    server passes to [json.dumps].  A [dict] keeps its insertion order. *)
Inductive value : Type :=
| VNone
| VBool (b : bool)
| VInt (n : Z)
| VFloat (x : float)
| VStr (s : string)
| VList (l : list value)
| VDict (d : list (string * value)).

(** [bool(v)], the test behind [if v], [not v] and [v or w]. *)
Definition truthy (v : value) : bool :=
  match v with
  | VNone => false
  | VBool b => b
  | VInt n => negb (n =? 0)%Z
  | VFloat x => negb (PrimFloat.eqb x 0%float)
  | VStr s => negb (is_empty s)
  | VList l => match l with [] => false | _ :: _ => true end
  | VDict d => match d with [] => false | _ :: _ => true end
  end.

(** [d.get(k)] on an insertion-ordered table with string keys. *)
Fixpoint lookup {A : Type} (k : string) (d : list (string * A)) : option A :=
  match d with
  | [] => None
  | (k', v) :: rest => if String.eqb k k' then Some v else lookup k rest
  end.

(** The entry [k] of a dictionary value, when [v] is one and has it. *)
Definition field (k : string) (v : value) : option value :=
  match v with
  | VDict d => lookup k d
  | _ => None
  end.

(** The field [k] is set: the key is there and its value is not [None]. *)
Definition is_set (k : string) (v : value) : bool :=
  match field k v with
  | Some VNone | None => false
  | Some _ => true
  end.

(** The exception classes the server distinguishes or can meet. *)
Inductive exn_class : Type :=
| TimeoutExpired
| FileNotFoundError
| PermissionError
| JSONDecodeError
| KeyError
| TypeError
| AttributeError
| OtherException.

(** An exception: its class and [str(e)]. *)
Record exn : Type := Exn { exn_cls : exn_class; exn_str : string }.

Inductive res (A : Type) : Type :=
| Ok (a : A)
| Raise (e : exn).
Arguments Ok {A} a.
Arguments Raise {A} e.

(** What [subprocess.run] does: the process completes, or the call
    raises ([TimeoutExpired], [FileNotFoundError], [PermissionError], ...). *)
Inductive run_outcome : Type :=
| Completed (returncode : Z) (stdout stderr : string)
| Failed (e : exn).

(** What an operation does to the world, in order. *)
Inductive event : Type :=
| Run (cmd : list string) (timeout : Z) (out : run_outcome)
| Warn (msg : string).

Definition history : Type := list event.

(** The host of the server: the machine architecture, the outcome of each
    subprocess (which may depend on all that happened before), and the
    [json] module of the Python library. *)
Record host : Type := Host {
  platform_machine : string;
  subprocess_outcome : history -> list string -> Z -> run_outcome;
  json_loads : string -> res value;
  json_dumps : option nat -> value -> string
}.

(** A computation: from the history so far to a result, or an exception,
    and the history extended. *)
Definition M (A : Type) : Type := history -> res A * history.

Definition ret {A : Type} (a : A) : M A := fun h => (Ok a, h).

Definition raise {A : Type} (e : exn) : M A := fun h => (Raise e, h).

Definition bind {A B : Type} (c : M A) (k : A -> M B) : M B :=
  fun h =>
    match c h with
    | (Ok a, h') => k a h'
    | (Raise e, h') => (Raise e, h')
    end.

(** [try: c  except ...: handler(e)]; the handler re-raises the exceptions
    no clause matches. *)
Definition try_except {A : Type} (c : M A) (handler : exn -> M A) : M A :=
  fun h =>
    match c h with
    | (Ok a, h') => (Ok a, h')
    | (Raise e, h') => handler e h'
    end.

Definition lift {A : Type} (r : res A) : M A := fun h => (r, h).

(** [subprocess.run(cmd, ..., timeout=timeout)]: the stdout and stderr of
    the completed process with its return code, or the exception. *)
Definition subprocess_run (H : host) (cmd : list string) (timeout : Z)
  : M (Z * string * string) :=
  fun h =>
    let out := subprocess_outcome H h cmd timeout in
    let h' := (h ++ [Run cmd timeout out])%list in
    match out with
    | Completed rc so se => (Ok (rc, so, se), h')
    | Failed e => (Raise e, h')
    end.

(** [logger.warning(msg)] *)
Definition logger_warning (msg : string) : M unit :=
  fun h => (Ok tt, (h ++ [Warn msg])%list).

(** [for t in v]: the elements of a list, the keys of a dictionary, the
    characters of a string; nothing else here is iterable. *)
Fixpoint chars (s : string) : list value :=
  match s with
  | EmptyString => []
  | String c s' => VStr (String c EmptyString) :: chars s'
  end.

Definition iter (v : value) : res (list value) :=
  match v with
  | VList l => Ok l
  | VDict d => Ok (map (fun kv => VStr (fst kv)) d)
  | VStr s => Ok (chars s)
  | _ => Raise (Exn TypeError "object is not iterable")
  end.

(** [v[k]] for a string key [k]. *)
Definition getitem (v : value) (k : string) : res value :=
  match v with
  | VDict d =>
      match lookup k d with
      | Some x => Ok x
      | None => Raise (Exn KeyError (repr_plain k))
      end
  | _ => Raise (Exn TypeError "indices must be integers")
  end.

(** [v.get(k, default)] *)
Definition get_default (v : value) (k : string) (default : value) : res value :=
  match v with
  | VDict d =>
      match lookup k d with
      | Some x => Ok x
      | None => Ok default
      end
  | _ => Raise (Exn AttributeError "object has no attribute 'get'")
  end.

(** [[f(x) for x in l]] where [f] may raise. *)
Fixpoint map_res {A B : Type} (f : A -> res B) (l : list A) : res (list B) :=
  match l with
  | [] => Ok []
  | x :: rest =>
      match f x with
      | Raise e => Raise e
      | Ok y =>
          match map_res f rest with
          | Raise e => Raise e
          | Ok ys => Ok (y :: ys)
          end
      end
  end.

End Py.

Import Py.

Declare Scope py_scope.
Delimit Scope py_scope with py.
Notation "x <- c ;; k" := (bind c (fun x => k))
  (at level 61, c at next level, right associativity) : py_scope.
Notation "c ;;; k" := (bind c (fun _ => k))
  (at level 61, right associativity) : py_scope.
Open Scope py_scope.

(* ===================================================================== *)
(** * The server *)
(* ===================================================================== *)

Module Server.

(** One entry of [CLI_CONFIG]. *)
Record config : Type := Config {
  path : string;
  version_cmd : list string;
  json_flag : string;
  source : string;
  cask : string
}.

Definition CLI_CONFIG : list (string * config) :=
  [ ("jira-ticket-cli",
     Config "jira-ticket-cli" ["--version"] "--output json" "cask"
            "open-cli-collective/tap/jira-ticket-cli");
    ("slck",
     Config "slck" ["--version"] "--output json" "cask"
            "open-cli-collective/tap/slack-chat-cli");
    ("cfl",
     Config "cfl" ["--version"] "--output json" "cask"
            "open-cli-collective/tap/cfl");
    ("newrelic-cli",
     Config "newrelic-cli" ["--version"] "--output json" "cask"
            "open-cli-collective/tap/newrelic-cli");
    ("gro",
     Config "gro" ["--version"] "--json" "cask"
            "open-cli-collective/tap/google-readonly") ].

(** [list(CLI_CONFIG.keys())] *)
Definition keys : list string := map fst CLI_CONFIG.

(** [CLI_CONFIG[name]] *)
Definition CLI_CONFIG_at (name : string) : res config :=
  match lookup name CLI_CONFIG with
  | Some c => Ok c
  | None => Raise (Exn KeyError (repr_plain name))
  end.

(** [CLI_CONFIG[t]] for a value [t] that need not be a string: a list or a
    dictionary cannot be a key at all, anything else is a missing key. *)
Definition CLI_CONFIG_at_value (t : value) : res config :=
  match t with
  | VStr name => CLI_CONFIG_at name
  | VList _ | VDict _ => Raise (Exn TypeError "unhashable type")
  | _ => Raise (Exn KeyError "")
  end.

(** [name in CLI_CONFIG] *)
Definition in_CLI_CONFIG (name : string) : bool :=
  match lookup name CLI_CONFIG with
  | Some _ => true
  | None => false
  end.

(** [config["cask"].split("/")[-1]] *)
Definition cask_name_of (c : config) : string :=
  last (split_sep "/" (cask c)) EmptyString.

(** The dictionary appended to [updates_available] for a matching line. *)
Definition candidate (name cask_name line : string) : value :=
  let parts := split line in
  VDict [ ("cli", VStr name);
          ("cask", VStr cask_name);
          ("current",
           VStr (if (1 <? List.length parts)%nat
                 then nth 1 parts "unknown" else "unknown"));
          ("latest",
           VStr (if (2 <? List.length parts)%nat
                 then last parts "unknown" else "unknown"));
          ("source", VStr "cask") ].

(** [for line in outdated_lines: if cask_name in line: ...; break] *)
Fixpoint scan_lines (name cask_name : string) (outdated_lines : list string)
  : list value :=
  match outdated_lines with
  | [] => []
  | line :: rest =>
      if contains cask_name line
      then [candidate name cask_name line]
      else scan_lines name cask_name rest
  end.

(** [for name, config in CLI_CONFIG.items(): ...], over the tools [tools]. *)
Definition scan_tools (tools : list (string * config))
  (outdated_lines : list string) : list value :=
  flat_map (fun nc => scan_lines (fst nc) (cask_name_of (snd nc)) outdated_lines)
           tools.

Definition is_nil {A : Type} (l : list A) : bool :=
  match l with [] => true | _ :: _ => false end.

(** The dictionary [check_for_updates] serializes. *)
Definition updates_report (updates_available : list value) : value :=
  VDict [ ("updates_available",
           VBool (0 <? List.length updates_available)%nat);
          ("tools", VList updates_available);
          ("message",
           VStr (if negb (is_nil updates_available)
                 then str_of_int (Z.of_nat (List.length updates_available))
                      ++ " tool(s) have updates available"
                 else "All tools are up to date")) ].

(** [s[:n]] *)
Definition take (n : nat) (s : string) : string := String.substring 0 n s.

Section Operations.

Context (H : host).

Definition run_cli (cmd : list string) (timeout : Z) : M value :=
  try_except
    (r <- subprocess_run H cmd timeout ;;
     let '(returncode, stdout, stderr) := r in
     let output := strip stdout in
     let stderr := strip stderr in
     data <- try_except
               (if truthy (VStr output)
                then lift (json_loads H output)
                else ret VNone)
               (fun e =>
                  match exn_cls e with
                  | JSONDecodeError => ret VNone
                  | _ => raise e
                  end) ;;
     ret (VDict [ ("success", VBool (returncode =? 0)%Z);
                  ("exit_code", VInt returncode);
                  ("data", data);
                  ("output", if negb (truthy data) then VStr output else VNone);
                  ("stderr", if truthy (VStr stderr) then VStr stderr else VNone) ]))
    (fun e =>
       match exn_cls e with
       | TimeoutExpired =>
           ret (VDict [ ("success", VBool false);
                        ("error",
                         VStr ("Command timed out after "
                               ++ str_of_int timeout ++ "s")) ])
       | FileNotFoundError =>
           ret (VDict [ ("success", VBool false);
                        ("error", VStr ("CLI not found: " ++ exn_str e)) ])
       | _ =>
           ret (VDict [ ("success", VBool false);
                        ("error", VStr (exn_str e)) ])
       end).

Definition cli_help (cli : string) (subcommand : option string) : M string :=
  if negb (in_CLI_CONFIG cli)
  then ret (json_dumps H None
              (VDict [ ("error",
                        VStr ("Unknown CLI: " ++ cli ++ ". Available: "
                              ++ str_of_list keys)) ]))
  else
    config <- lift (CLI_CONFIG_at cli) ;;
    let cmd := [path config] in
    let cmd :=
      match subcommand with
      | Some sub => if truthy (VStr sub) then (cmd ++ split sub)%list else cmd
      | None => cmd
      end in
    let cmd := (cmd ++ ["--help"])%list in
    result <- run_cli cmd 60 ;;
    ret (json_dumps H (Some 2) result).

Definition jira_cli (args : string) : M string :=
  config <- lift (CLI_CONFIG_at "jira-ticket-cli") ;;
  let cmd := ([path config] ++ split args)%list in
  result <- run_cli cmd 60 ;;
  ret (json_dumps H (Some 2) result).

Definition slack_cli (args : string) : M string :=
  config <- lift (CLI_CONFIG_at "slck") ;;
  let cmd := ([path config] ++ split args)%list in
  result <- run_cli cmd 60 ;;
  ret (json_dumps H (Some 2) result).

Definition confluence_cli (args : string) : M string :=
  config <- lift (CLI_CONFIG_at "cfl") ;;
  let cmd := ([path config] ++ split args)%list in
  result <- run_cli cmd 60 ;;
  ret (json_dumps H (Some 2) result).

Definition newrelic_cli (args : string) : M string :=
  config <- lift (CLI_CONFIG_at "newrelic-cli") ;;
  let cmd := ([path config] ++ split args)%list in
  result <- run_cli cmd 60 ;;
  ret (json_dumps H (Some 2) result).

Definition google_cli (args : string) : M string :=
  config <- lift (CLI_CONFIG_at "gro") ;;
  let cmd := ([path config] ++ split args)%list in
  result <- run_cli cmd 60 ;;
  ret (json_dumps H (Some 2) result).

Definition jira_get_issue (issue_key : string) : M string :=
  jira_cli ("issues get " ++ issue_key ++ " --output json").

Definition slack_search_messages (query : string) (count : Z) : M string :=
  slack_cli ("search messages " ++ dquote ++ query ++ dquote
             ++ " --count " ++ str_of_int count ++ " --output json").

Definition confluence_search (query : string) (limit : Z) : M string :=
  confluence_cli ("search " ++ dquote ++ query ++ dquote
                  ++ " --limit " ++ str_of_int limit ++ " --output json").

Definition gmail_search (query : string) (limit : Z) : M string :=
  google_cli ("gmail search --query " ++ dquote ++ query ++ dquote
              ++ " --limit " ++ str_of_int limit ++ " --json").

Definition calendar_today : M string :=
  google_cli "calendar today --json".

Definition drive_search (query : string) (limit : Z) : M string :=
  google_cli ("drive search " ++ dquote ++ query ++ dquote
              ++ " --limit " ++ str_of_int limit ++ " --json").

Definition get_brew_path : string :=
  if String.eqb (platform_machine H) "arm64"
  then "/opt/homebrew/bin/brew"
  else "/usr/local/bin/brew".

(** The body of the loop of [list_tools_status] for one tool: the entry
    stored in [status]. *)
Definition tool_status_of (name : string) (config : config) : M value :=
  let brew := get_brew_path in
  let tool_status := [ ("source", VStr (source config));
                       ("cask", VStr (cask config)) ] in
  probed <- try_except
      (let cmd := ([path config] ++ version_cmd config)%list in
       r <- subprocess_run H cmd 5 ;;
       let '(_, stdout, stderr) := r in
       let version_output :=
         if truthy (VStr (strip stdout)) then strip stdout else strip stderr in
       ret (inl (tool_status
                 ++ [ ("installed", VBool true);
                      ("version",
                       VStr (hd EmptyString (split_sep "010" version_output))) ])%list))
      (fun e =>
         ret (inr (tool_status
                   ++ [ ("installed", VBool false);
                        ("error", VStr (exn_str e)) ])%list)) ;;
  match probed with
  | inr tool_status => ret (VDict tool_status)
  | inl tool_status =>
      tool_status <- try_except
          (let cask_name := cask_name_of config in
           r <- subprocess_run H [brew; "outdated"; "--cask"; "--greedy"] 30 ;;
           let '(returncode, stdout, _) := r in
           if (returncode =? 0)%Z
           then ret (tool_status
                     ++ [ ("update_available",
                           VBool (contains cask_name stdout)) ])%list
           else ret tool_status)
          (fun _ => ret tool_status) ;;
      ret (VDict tool_status)
  end.

Fixpoint list_tools_status_loop (tools : list (string * config))
  (status : list (string * value)) : M (list (string * value)) :=
  match tools with
  | [] => ret status
  | (name, config) :: rest =>
      tool_status <- tool_status_of name config ;;
      list_tools_status_loop rest (status ++ [(name, tool_status)])%list
  end.

Definition list_tools_status : M string :=
  status <- list_tools_status_loop CLI_CONFIG [] ;;
  ret (json_dumps H (Some 2) (VDict status)).

Definition check_for_updates : M string :=
  let brew := get_brew_path in
  updates_available <- try_except
      (r <- subprocess_run H [brew; "outdated"; "--cask"; "--greedy"] 30 ;;
       let '(returncode, stdout, _) := r in
       if (returncode =? 0)%Z
       then
         let outdated_lines := split_sep "010" (strip stdout) in
         ret (scan_tools CLI_CONFIG outdated_lines)
       else ret [])
      (fun e =>
         logger_warning ("Failed to check cask updates: " ++ exn_str e) ;;;
         ret []) ;;
  ret (json_dumps H (Some 2) (updates_report updates_available)).

(** The single call to the package source of [update_tools], with what is
    appended to [results]. *)
Definition upgrade_casks (tools_to_update : list value) (casks : list string)
  : M (list value) :=
  let brew := get_brew_path in
  try_except
    (r <- subprocess_run H ([brew; "upgrade"; "--cask"] ++ casks)%list 300 ;;
     let '(returncode, stdout, stderr) := r in
     ret [ VDict [ ("tools", VList tools_to_update);
                   ("source", VStr "homebrew cask");
                   ("success", VBool (returncode =? 0)%Z);
                   ("output",
                    VStr (if (returncode =? 0)%Z then stdout else stderr)) ] ])
    (fun e =>
       ret [ VDict [ ("tools", VList tools_to_update);
                     ("source", VStr "homebrew cask");
                     ("success", VBool false);
                     ("error", VStr (exn_str e)) ] ]).

Definition update_tools (tools : option (list string)) : M string :=
  tools_to_update <-
    match tools with
    | Some ((_ :: _) as tools) =>
        ret (map VStr (filter in_CLI_CONFIG tools))
    | _ =>
        checked <- check_for_updates ;;
        check_result <- lift (json_loads H checked) ;;
        listed <- lift (get_default check_result "tools" (VList [])) ;;
        items <- lift (iter listed) ;;
        lift (map_res (fun t => getitem t "cli") items)
    end ;;
  if is_nil tools_to_update
  then ret (json_dumps H None
              (VDict [ ("message", VStr "No tools to update");
                       ("results", VList []) ]))
  else
    configs <- lift (map_res CLI_CONFIG_at_value tools_to_update) ;;
    let casks := map cask configs in
    results <- upgrade_casks tools_to_update casks ;;
    ret (json_dumps H (Some 2)
           (VDict [ ("updated", VList tools_to_update);
                    ("results", VList results) ])).

(** The first loop of [install_missing_tools]: each tool is probed with its
    version command, and [missing] collects the names whose probe raised
    [FileNotFoundError]; any other exception leaves the loop. *)
Fixpoint probe_tools (tools : list (string * config)) (missing : list string)
  : M (list string) :=
  match tools with
  | [] => ret missing
  | (name, config) :: rest =>
      missing <- try_except
          (subprocess_run H ([path config] ++ version_cmd config)%list 5 ;;;
           ret missing)
          (fun e =>
             match exn_cls e with
             | FileNotFoundError => ret (missing ++ [name])%list
             | _ => raise e
             end) ;;
      probe_tools rest missing
  end.

(** The batched call to the package source of [install_missing_tools], with
    what is appended to [results]. *)
Definition install_casks (missing : list string) (casks : list string)
  : M (list value) :=
  let brew := get_brew_path in
  try_except
    (r <- subprocess_run H ([brew; "install"; "--cask"] ++ casks)%list 300 ;;
     let '(returncode, stdout, stderr) := r in
     ret [ VDict [ ("tools", VList (map VStr missing));
                   ("source", VStr "homebrew cask");
                   ("success", VBool (returncode =? 0)%Z);
                   ("output",
                    VStr (if (returncode =? 0)%Z
                          then take 500 stdout else take 500 stderr)) ] ])
    (fun e =>
       ret [ VDict [ ("tools", VList (map VStr missing));
                     ("source", VStr "homebrew cask");
                     ("success", VBool false);
                     ("error", VStr (exn_str e)) ] ]).

Definition install_missing_tools : M string :=
  let brew := get_brew_path in
  missing <- probe_tools CLI_CONFIG [] ;;
  if is_nil missing
  then ret (json_dumps H None
              (VDict [ ("message", VStr "All tools are installed");
                       ("missing", VList []) ]))
  else
    subprocess_run H [brew; "tap"; "open-cli-collective/tap"] 60 ;;;
    configs <- lift (map_res CLI_CONFIG_at missing) ;;
    let casks := map cask configs in
    results <- install_casks missing casks ;;
    ret (json_dumps H (Some 2)
           (VDict [ ("missing_tools", VList (map VStr missing));
                    ("results", VList results) ])).

End Operations.

End Server.

Import Server.

(* ===================================================================== *)
(** * Concrete hosts *)
(* ===================================================================== *)

Module Fixtures.

(** A plain rendering of a value, standing in for [json.dumps] on the
    concrete hosts below (it ignores [indent] and escapes nothing). *)
Fixpoint show (v : value) : string :=
  match v with
  | VNone => "null"
  | VBool true => "true"
  | VBool false => "false"
  | VInt n => str_of_int n
  | VFloat _ => "<float>"
  | VStr s => dquote ++ s ++ dquote
  | VList l => "[" ++ join ", " (map show l) ++ "]"
  | VDict d =>
      "{" ++ join ", "
               (map (fun kv => let '(k, x) := kv in
                               dquote ++ k ++ dquote ++ ": " ++ show x) d)
          ++ "}"
  end.

(** The JSON documents the concrete hosts decode; any other text is refused
    with [JSONDecodeError]. *)
Definition loads (s : string) : res value :=
  if String.eqb s "[]" then Ok (VList [])
  else if String.eqb s "{}" then Ok (VDict [])
  else if String.eqb s "null" then Ok VNone
  else if String.eqb s "true" then Ok (VBool true)
  else if String.eqb s "false" then Ok (VBool false)
  else if String.eqb s "0" then Ok (VInt 0)
  else if String.eqb s "1" then Ok (VInt 1)
  else Raise (Exn JSONDecodeError "Expecting value").

(** A host on an arm64 machine whose subprocesses answer by [answer],
    whatever happened before. *)
Definition host_of (answer : list string -> run_outcome) : host :=
  Host "arm64" (fun _ cmd _ => answer cmd) loads (fun _ v => show v).

(** Every command completes at once and prints nothing. *)
Definition quiet : host := host_of (fun _ => Completed 0 "" "").

(** Every command prints the empty JSON array. *)
Definition empty_array : host := host_of (fun _ => Completed 0 "[]" "").

(** No command finishes within its bound. *)
Definition stuck : host :=
  host_of (fun cmd =>
             Failed (Exn TimeoutExpired "Command timed out")).

(** [cmd] starts with the program [prog]. *)
Definition runs (prog : string) (cmd : list string) : bool :=
  match cmd with
  | p :: _ => String.eqb p prog
  | [] => false
  end.

(** [cfl] is not installed; everything else completes and prints nothing. *)
Definition without_cfl : host :=
  host_of (fun cmd =>
             if runs "cfl" cmd
             then Failed (Exn FileNotFoundError
                            "[Errno 2] No such file or directory: 'cfl'")
             else Completed 0 "" "").

(** [jira-ticket-cli] is installed but may not be executed. *)
Definition jira_not_executable : host :=
  host_of (fun cmd =>
             if runs "jira-ticket-cli" cmd
             then Failed (Exn PermissionError
                            "[Errno 13] Permission denied: 'jira-ticket-cli'")
             else Completed 0 "" "").


(** [cfl] is not installed, and neither is the package source. *)
Definition without_cfl_or_brew : host :=
  host_of (fun cmd =>
             if runs "cfl" cmd
             then Failed (Exn FileNotFoundError
                            "[Errno 2] No such file or directory: 'cfl'")
             else if runs "/opt/homebrew/bin/brew" cmd
             then Failed (Exn FileNotFoundError
                            "[Errno 2] No such file or directory: '/opt/homebrew/bin/brew'")
             else Completed 0 "" "").

(** The package source lists [outdated] as its outdated casks. *)
Definition brew_outdated (outdated : string) : host :=
  host_of (fun cmd =>
             if runs "/opt/homebrew/bin/brew" cmd
             then Completed 0 outdated ""
             else Completed 0 "" "").

(** The package source itself is not installed; the tools are. *)
Definition without_brew : host :=
  host_of (fun cmd =>
             if runs "/opt/homebrew/bin/brew" cmd
             then Failed (Exn FileNotFoundError
                            "[Errno 2] No such file or directory: '/opt/homebrew/bin/brew'")
             else Completed 0 "1.4.2" "").

(** Every command prints [text], and the decoder gives up on it with an
    exception that is not a [JSONDecodeError]. *)
Definition undecodable (text : string) : host :=
  Host "arm64" (fun _ _ _ => Completed 0 text "")
       (fun _ => Raise (Exn OtherException
                          "maximum recursion depth exceeded while decoding a JSON array"))
       (fun _ v => show v).

(** A decoder that reads back the documents [docs] from their rendering by
    [show], and anything else as [loads] does. *)
Definition loads_among (docs : list value) (s : string) : res value :=
  match find (fun v => String.eqb (show v) s) docs with
  | Some v => Ok v
  | None => loads s
  end.

(** The package source lists [outdated], and the documents [docs] are read
    back from their rendering. *)
Definition brew_outdated_reading (outdated : string) (docs : list value) : host :=
  Host "arm64"
       (fun _ cmd _ =>
          if runs "/opt/homebrew/bin/brew" cmd
          then Completed 0 outdated ""
          else Completed 0 "" "")
       (loads_among docs) (fun _ v => show v).

End Fixtures.

(* ===================================================================== *)
(** * Observations on results *)
(* ===================================================================== *)

Module Observe.

(** The candidate [c] of an update plan is the one of the tool [name]. *)
Definition is_cli (name : string) (c : value) : bool :=
  match field "cli" c with
  | Some (VStr n) => String.eqb n name
  | _ => false
  end.

(** The probe raised [FileNotFoundError]: the binary was not found. *)
Definition not_found (out : run_outcome) : bool :=
  match out with
  | Failed e =>
      match exn_cls e with
      | FileNotFoundError => true
      | _ => false
      end
  | Completed _ _ _ => false
  end.

(** The probe completed, or the binary was not found. *)
Definition completed_or_not_found (out : run_outcome) : Prop :=
  match out with
  | Completed _ _ _ => True
  | Failed e => exn_cls e = FileNotFoundError
  end.

(** The command that probes a tool. *)
Definition probe_command (c : config) : list string :=
  ([path c] ++ version_cmd c)%list.

(** The probes of the tools [tools], with their outcomes [outs], as events. *)
Definition probe_events (tools : list (string * config))
  (outs : list run_outcome) : list event :=
  map (fun p => Run (probe_command (snd (fst p))) 5 (snd p))
      (combine tools outs).

(** The names of the tools [tools] whose probe, in [outs], did not find the
    binary. *)
Definition not_found_names (tools : list (string * config))
  (outs : list run_outcome) : list string :=
  map (fun p => fst (fst p))
      (filter (fun p => not_found (snd p)) (combine tools outs)).

(** The character [c] occurs in [s]. *)
Definition has_char (c : ascii) (s : string) : bool :=
  existsb (Ascii.eqb c) (list_ascii_of_string s).

(** What [list_tools_status] does for one tool with configuration [c]:
    the probe, with its outcome; after a probe that completed, and only
    then, one question to the package source, with its outcome. *)
Definition status_events (brew : string) (c : config)
  (probe : run_outcome) (query : option run_outcome) : list event :=
  Run (probe_command c) 5 probe
  :: match query with
     | Some answer => [Run [brew; "outdated"; "--cask"; "--greedy"] 30 answer]
     | None => []
     end.

(** What the status listing says of that tool.  Always its source and its
    cask.  After a probe that raised: the package source was not asked, the
    tool is not installed, the error is the text of the exception of the
    probe, and there is neither a version nor an update flag.  After a probe
    that completed: the package source was asked, the tool is installed,
    there is no error, the version is the first line of the trimmed stdout
    of the probe (of its trimmed stderr when that stdout is blank), which is
    one line; and the update flag says whether the cask name occurs in the
    listing when the package source exited with 0, and is absent
    otherwise. *)
Definition status_entry (c : config) (probe : run_outcome)
  (query : option run_outcome) (entry : value) : Prop :=
  field "source" entry = Some (VStr (source c))
  /\ field "cask" entry = Some (VStr (cask c))
  /\ match probe with
     | Failed e =>
         query = None
         /\ field "installed" entry = Some (VBool false)
         /\ field "error" entry = Some (VStr (exn_str e))
         /\ field "version" entry = None
         /\ field "update_available" entry = None
     | Completed _ stdout stderr =>
         exists answer version,
           query = Some answer
           /\ field "installed" entry = Some (VBool true)
           /\ field "error" entry = None
           /\ field "version" entry = Some (VStr version)
           /\ version
              = hd EmptyString
                   (split_sep "010"
                      (if is_empty (strip stdout) then strip stderr
                       else strip stdout))
           /\ has_char "010" version = false
           /\ field "update_available" entry
              = match answer with
                | Completed 0 listing _ =>
                    Some (VBool (contains (cask_name_of c) listing))
                | _ => None
                end
     end.

(** The events of the whole listing: those of each tool, in order. *)
Definition listing_events (brew : string) (tools : list (string * config))
  (runs : list (run_outcome * option run_outcome)) : list event :=
  flat_map (fun tr => status_events brew (snd (fst tr)) (fst (snd tr)) (snd (snd tr)))
           (combine tools runs).

(** The programs the server may run: the registered tools and the package
    source at one of its two places. *)
Definition known_programs : list string :=
  (map (fun nc => path (snd nc)) CLI_CONFIG
   ++ ["/opt/homebrew/bin/brew"; "/usr/local/bin/brew"])%list.

(** An event the server is allowed to cause: a warning in the log, or a
    subprocess that runs a known program under one of the four time
    bounds. *)
Definition allowed_event (ev : event) : Prop :=
  match ev with
  | Warn _ => True
  | Run cmd timeout _ =>
      (exists program arguments,
          cmd = program :: arguments /\ In program known_programs)
      /\ In timeout [5; 30; 60; 300]%Z
  end.

(** The computation [c] only adds allowed events to the history. *)
Definition well_behaved {A : Type} (c : M A) : Prop :=
  forall h, exists added,
    snd (c h) = (h ++ added)%list /\ Forall allowed_event added.

(** Some line of [lines] contains the cask name of the tool [nc]. *)
Definition listed (lines : list string) (nc : string * config) : bool :=
  existsb (contains (cask_name_of (snd nc))) lines.

End Observe.

Import Observe.

(* ===================================================================== *)
(** * Properties *)
(* ===================================================================== *)

(** ** Strings and tables *)

Lemma prefix_app (x y : string) : String.prefix x (x ++ y) = true.
Proof.
  induction x as [|c x IH]; simpl.
  - destruct y; reflexivity.
  - destruct (ascii_dec c c) as [_|Hne]; [exact IH | now elim Hne].
Qed.

Lemma contains_here (x y : string) : contains x (x ++ y) = true.
Proof.
  assert (Hpre : forall s, String.prefix x s = true -> contains x s = true).
  { intros [|c s] Hs; cbn [contains]; rewrite Hs; reflexivity. }
  apply Hpre, prefix_app.
Qed.

Lemma contains_skip (x a s : string) :
  contains x s = true -> contains x (a ++ s) = true.
Proof.
  intros Hs. induction a as [|c a IH]; simpl; [exact Hs|].
  rewrite IH. apply orb_true_r.
Qed.

Lemma lookup_None_iff {A : Type} (k : string) (d : list (string * A)) :
  lookup k d = None <-> ~ In k (map fst d).
Proof.
  induction d as [|[k' v] d IH]; simpl.
  - split; [intros _ [] | reflexivity].
  - destruct (String.eqb_spec k k') as [->|Hne].
    + split; [discriminate | intros Hn; elim Hn; now left].
    + rewrite IH. split.
      * intros Hn [Heq|Hin]; [now elim Hne | now elim Hn].
      * intros Hn Hin. apply Hn. now right.
Qed.

Lemma in_CLI_CONFIG_iff (name : string) :
  in_CLI_CONFIG name = true <-> In name keys.
Proof.
  unfold in_CLI_CONFIG, keys.
  destruct (lookup name CLI_CONFIG) eqn:E.
  - split; [intros _ | reflexivity].
    destruct (in_dec string_dec name (map fst CLI_CONFIG)) as [Hin|Hn];
      [exact Hin|].
    apply lookup_None_iff in Hn. congruence.
  - split; [discriminate|]. intros Hin.
    apply lookup_None_iff in E. now elim E.
Qed.




Section Properties.

Context (H : host).

(** ** The executor *)

(** C7: when the subprocess exceeds its bound ([subprocess.run] raises
    [TimeoutExpired]), [run_cli] returns the dictionary with [success =
    False] and the message [Command timed out after <timeout>s], where
    <timeout> is the bound in decimal; the dictionary has no [data], no
    [output] and no [exit_code] entry, and the captured output of the
    process appears nowhere in it. *)
Theorem run_cli_timeout (h : history) (cmd : list string) (timeout : Z) (e : exn) :
  subprocess_outcome H h cmd timeout = Failed e ->
  exn_cls e = TimeoutExpired ->
  let result :=
    VDict [ ("success", VBool false);
            ("error",
             VStr ("Command timed out after " ++ str_of_int timeout ++ "s")) ] in
  run_cli H cmd timeout h
  = (Ok result, (h ++ [Run cmd timeout (Failed e)])%list)
  /\ field "data" result = None
  /\ field "output" result = None
  /\ field "exit_code" result = None.
Proof.
  intros Hout Hcls result.
  split; [|repeat split].
  unfold run_cli, try_except, bind, subprocess_run.
  rewrite Hout, Hcls. reflexivity.
Qed.

(** ** The registry *)

(** C8: for a name that is not a key of [CLI_CONFIG], [cli_help] raises
    nothing and runs no subprocess: it returns the serialized dictionary whose
    only entry is [error], a message that contains the unknown name and every
    registered name. *)
Theorem cli_help_unknown (h : history) (cli : string) (subcommand : option string) :
  ~ In cli keys ->
  let message :=
    "Unknown CLI: " ++ cli
    ++ ". Available: ['jira-ticket-cli', 'slck', 'cfl', 'newrelic-cli', 'gro']" in
  cli_help H cli subcommand h
  = (Ok (json_dumps H None (VDict [("error", VStr message)])), h)
  /\ contains cli message = true
  /\ (forall name, In name keys -> contains name message = true).
Proof.
  intros Hnot message.
  assert (Hlook : in_CLI_CONFIG cli = false).
  { destruct (in_CLI_CONFIG cli) eqn:E; [|reflexivity].
    apply in_CLI_CONFIG_iff in E. now elim Hnot. }
  split; [|split].
  - unfold cli_help. rewrite Hlook. reflexivity.
  - apply (contains_skip cli "Unknown CLI: "). apply contains_here.
  - intros name Hin.
    apply (contains_skip name "Unknown CLI: "), (contains_skip name cli).
    simpl in Hin.
    repeat (destruct Hin as [<-|Hin]; [vm_compute; reflexivity|]).
    destruct Hin.
Qed.

(** ** The executor never raises *)

Lemma run_cli_total (cmd : list string) (timeout : Z) (h : history) :
  exists result,
    run_cli H cmd timeout h
    = (Ok result, (h ++ [Run cmd timeout (subprocess_outcome H h cmd timeout)])%list).
Proof.
  unfold run_cli, try_except, bind, subprocess_run, lift, ret, raise.
  destruct (subprocess_outcome H h cmd timeout) as [rc so se|e].
  - destruct (truthy (VStr (strip so))).
    + destruct (json_loads H (strip so)) as [data|e].
      * eexists; reflexivity.
      * destruct (exn_cls e) eqn:E; cbv beta iota; rewrite ?E;
          eexists; reflexivity.
    + eexists; reflexivity.
  - destruct (exn_cls e); eexists; reflexivity.
Qed.

(** X4: when the trimmed stdout decodes to a truthy value, [run_cli] reports
    that value as [data] and [output] is [None]. *)
Lemma run_cli_truthy_data (h : history) (cmd : list string) (timeout rc : Z)
  (stdout stderr : string) (data : value) :
  subprocess_outcome H h cmd timeout = Completed rc stdout stderr ->
  is_empty (strip stdout) = false ->
  json_loads H (strip stdout) = Ok data ->
  truthy data = true ->
  exists result,
    fst (run_cli H cmd timeout h) = Ok result
    /\ field "data" result = Some data
    /\ is_set "output" result = false.
Proof.
  intros Hout Hne Hdec Htrue.
  unfold run_cli, try_except, bind, subprocess_run, lift, ret.
  rewrite Hout. cbn [truthy]. rewrite Hne. cbn [negb]. rewrite Hdec, Htrue.
  eexists. split; [reflexivity|]. split; reflexivity.
Qed.

(** C2: the envelope of [run_cli] can have both [data] and [output] set.
    When the trimmed stdout decodes to a value that is not [None] but is
    falsy (the empty array, the empty object, zero, [false], the empty
    string), the test [not data] succeeds and [output] carries the trimmed
    stdout next to [data]. *)
Theorem run_cli_falsy_data_keeps_output (h : history) (cmd : list string)
  (timeout rc : Z) (stdout stderr : string) (data : value) :
  subprocess_outcome H h cmd timeout = Completed rc stdout stderr ->
  is_empty (strip stdout) = false ->
  json_loads H (strip stdout) = Ok data ->
  truthy data = false ->
  exists result,
    fst (run_cli H cmd timeout h) = Ok result
    /\ field "data" result = Some data
    /\ field "output" result = Some (VStr (strip stdout))
    /\ is_set "output" result = true
    /\ (is_set "data" result = true <-> data <> VNone).
Proof.
  intros Hout Hne Hdec Hfalse.
  unfold run_cli, try_except, bind, subprocess_run, lift, ret.
  rewrite Hout. cbn [truthy]. rewrite Hne. cbn [negb]. rewrite Hdec, Hfalse.
  eexists. split; [reflexivity|]. repeat split.
  - unfold is_set. cbn. destruct data; congruence.
  - unfold is_set. cbn. destruct data; congruence.
Qed.

(** ** Pass-through operations *)

(** The command a pass-through operation builds, evaluated: the entry of
    [CLI_CONFIG] and the tokens of a literal argument string. *)
Ltac eval_config :=
  match goal with
  | |- context [CLI_CONFIG_at ?name] =>
      let c := eval vm_compute in (CLI_CONFIG_at name) in
      change (CLI_CONFIG_at name) with c; cbv beta iota
  end.

Ltac eval_command :=
  eval_config;
  match goal with
  | |- context [([path ?c] ++ split ?args)%list] =>
      let l := eval vm_compute in ([path c] ++ split args)%list in
      change ([path c] ++ split args)%list with l
  end.

(** A pass-through operation raises nothing: it runs the path of its tool
    followed by the tokens of [args.split()], once, and returns the
    serialized envelope. *)
Ltac pass_through :=
  intros; unfold bind, lift; eval_config; cbn [path app];
  match goal with
  | |- context [run_cli _ ?c 60 ?h] =>
      let r := fresh "result" in
      destruct (run_cli_total c 60 h) as [r ->]; exists r; reflexivity
  end.

Lemma jira_cli_run (args : string) (h : history) :
  let cmd := "jira-ticket-cli" :: split args in
  exists result,
    jira_cli H args h
    = (Ok (json_dumps H (Some 2) result),
       (h ++ [Run cmd 60 (subprocess_outcome H h cmd 60)])%list).
Proof. unfold jira_cli. pass_through. Qed.

Lemma slack_cli_run (args : string) (h : history) :
  let cmd := "slck" :: split args in
  exists result,
    slack_cli H args h
    = (Ok (json_dumps H (Some 2) result),
       (h ++ [Run cmd 60 (subprocess_outcome H h cmd 60)])%list).
Proof. unfold slack_cli. pass_through. Qed.

Lemma confluence_cli_run (args : string) (h : history) :
  let cmd := "cfl" :: split args in
  exists result,
    confluence_cli H args h
    = (Ok (json_dumps H (Some 2) result),
       (h ++ [Run cmd 60 (subprocess_outcome H h cmd 60)])%list).
Proof. unfold confluence_cli. pass_through. Qed.

Lemma newrelic_cli_run (args : string) (h : history) :
  let cmd := "newrelic-cli" :: split args in
  exists result,
    newrelic_cli H args h
    = (Ok (json_dumps H (Some 2) result),
       (h ++ [Run cmd 60 (subprocess_outcome H h cmd 60)])%list).
Proof. unfold newrelic_cli. pass_through. Qed.

Lemma google_cli_run (args : string) (h : history) :
  let cmd := "gro" :: split args in
  exists result,
    google_cli H args h
    = (Ok (json_dumps H (Some 2) result),
       (h ++ [Run cmd 60 (subprocess_outcome H h cmd 60)])%list).
Proof. unfold google_cli. pass_through. Qed.

(** [cli_help] raises nothing, whatever the name. *)
Lemma cli_help_returns (cli : string) (subcommand : option string) (h : history) :
  exists payload h', cli_help H cli subcommand h = (Ok payload, h').
Proof.
  unfold cli_help. destruct (in_CLI_CONFIG cli) eqn:E; cbn [negb].
  - unfold in_CLI_CONFIG in E. unfold bind, lift, CLI_CONFIG_at.
    destruct (lookup cli CLI_CONFIG) as [c|]; [|discriminate].
    match goal with
    | |- context [run_cli H ?c 60 h] =>
        destruct (run_cli_total c 60 h) as [result ->]
    end.
    eexists. eexists. reflexivity.
  - eexists. eexists. reflexivity.
Qed.

(** C1: [newrelic_cli] splits the quoted value of its own docstring,
    ['SELECT * FROM Log'], at every blank and keeps the quote characters:
    the subprocess receives eight arguments, and none of them is the value
    [SELECT * FROM Log] that [test_single_quoted_values] expects after
    [--nrql]. *)
Theorem newrelic_cli_splits_quoted_value (h : history) :
  let cmd := [ "newrelic-cli"; "logs"; "query"; "--nrql";
               "'SELECT"; "*"; "FROM"; "Log'" ] in
  snd (newrelic_cli H "logs query --nrql 'SELECT * FROM Log'" h)
  = (h ++ [Run cmd 60 (subprocess_outcome H h cmd 60)])%list
  /\ existsb (String.eqb "SELECT * FROM Log") cmd = false.
Proof.
  intros cmd. split; [|reflexivity].
  subst cmd. unfold newrelic_cli, bind, lift. eval_command.
  match goal with
  | |- context [run_cli H ?c 60 h] =>
      destruct (run_cli_total c 60 h) as [result ->]
  end.
  reflexivity.
Qed.

(** C3: [jira_cli] reports no tokenization error for an argument string
    with an unmatched quote.  The stray quote stays in its token, the
    subprocess is launched with it, and the operation returns the serialized
    envelope of that run; when the process completes and prints nothing, it
    is the envelope of a completed run, with an exit code and no [error]
    entry. *)
Theorem jira_cli_unmatched_quote_runs (h : history) :
  let cmd := [ "jira-ticket-cli"; "issues"; "get"; "'PROJ-1" ] in
  let out := subprocess_outcome H h cmd 60 in
  exists result,
    run_cli H cmd 60 h = (Ok result, (h ++ [Run cmd 60 out])%list)
    /\ jira_cli H "issues get 'PROJ-1" h
       = (Ok (json_dumps H (Some 2) result), (h ++ [Run cmd 60 out])%list)
    /\ (forall rc se,
          out = Completed rc "" se ->
          result
          = VDict [ ("success", VBool (rc =? 0)%Z);
                    ("exit_code", VInt rc);
                    ("data", VNone);
                    ("output", VStr "");
                    ("stderr",
                     if truthy (VStr (strip se)) then VStr (strip se)
                     else VNone) ]).
Proof.
  intros cmd out. subst out cmd.
  match goal with
  | |- context [run_cli H ?c 60 h] =>
      destruct (run_cli_total c 60 h) as [result Hrun]
  end.
  exists result. split; [exact Hrun|]. split.
  - unfold jira_cli, bind, lift. eval_command.
    rewrite Hrun. reflexivity.
  - intros rc se Hout. revert Hrun.
    unfold run_cli, try_except, bind, subprocess_run, lift, ret, raise.
    rewrite Hout. cbn. intros [= <-]. reflexivity.
Qed.

(** ** The status listing *)

Lemma tool_status_of_returns (name : string) (config : config) (h : history) :
  exists tool_status h', tool_status_of H name config h = (Ok tool_status, h').
Proof.
  unfold tool_status_of, try_except, bind, subprocess_run, ret.
  destruct (subprocess_outcome H h _ 5) as [rc so se|e].
  - match goal with
    | |- context [subprocess_outcome H ?h0 ?c 30] =>
        destruct (subprocess_outcome H h0 c 30) as [rc' so' se'|e']
    end.
    + destruct (rc' =? 0)%Z; eexists; eexists; reflexivity.
    + eexists; eexists; reflexivity.
  - eexists; eexists; reflexivity.
Qed.

(** [list_tools_status] raises nothing. *)
Lemma list_tools_status_returns (h : history) :
  exists payload h', list_tools_status H h = (Ok payload, h').
Proof.
  unfold list_tools_status, bind.
  assert (Hloop : forall tools status h0,
             exists status' h', list_tools_status_loop H tools status h0
                                = (Ok status', h')).
  { induction tools as [|[name config] tools IH]; intros status h0.
    - cbn. now exists status, h0.
    - cbn [list_tools_status_loop]. unfold bind.
      destruct (tool_status_of_returns name config h0) as (ts & h1 & ->).
      apply IH. }
  destruct (Hloop CLI_CONFIG [] h) as (status & h' & ->).
  eexists; eexists; reflexivity.
Qed.

(** ** The update check *)

Lemma keys_NoDup : NoDup keys.
Proof.
  unfold keys. cbn.
  repeat (constructor; [cbn; intuition discriminate|]). constructor.
Qed.

Lemma scan_lines_first (name cask_name : string)
  (before : list string) (line : string) (after : list string) :
  Forall (fun l => contains cask_name l = false) before ->
  contains cask_name line = true ->
  scan_lines name cask_name (before ++ line :: after)
  = [candidate name cask_name line].
Proof.
  intros Hbefore Hline.
  induction Hbefore as [|l before Hl _ IH]; cbn [app scan_lines].
  - rewrite Hline. reflexivity.
  - rewrite Hl. exact IH.
Qed.

(** The loop over the lines stops at the first match: it appends nothing,
    or the candidate of the first line that contains the cask name. *)
Lemma scan_lines_cases (name cask_name : string) (lines : list string) :
  scan_lines name cask_name lines = []
  \/ exists before line after,
       lines = (before ++ line :: after)%list
       /\ Forall (fun l => contains cask_name l = false) before
       /\ contains cask_name line = true
       /\ scan_lines name cask_name lines = [candidate name cask_name line].
Proof.
  induction lines as [|l lines IH]; [now left|].
  cbn [scan_lines]. destruct (contains cask_name l) eqn:Hl.
  - right. exists [], l, lines. repeat split; trivial.
  - destruct IH as [IH|(before & line & after & -> & Hb & Hline & Hscan)].
    + now left.
    + right. exists (l :: before), line, after. repeat split; trivial.
      now constructor.
Qed.

Lemma is_cli_candidate (name n cask_name line : string) :
  is_cli name (candidate n cask_name line) = String.eqb n name.
Proof. reflexivity. Qed.

Lemma scan_lines_other (name n cask_name : string) (lines : list string) :
  n <> name -> filter (is_cli name) (scan_lines n cask_name lines) = [].
Proof.
  intros Hne.
  destruct (scan_lines_cases n cask_name lines)
    as [->|(before & line & after & _ & _ & _ & ->)]; [reflexivity|].
  cbn [filter]. rewrite is_cli_candidate.
  destruct (String.eqb_spec n name); [contradiction | reflexivity].
Qed.

Lemma scan_lines_length (name n cask_name : string) (lines : list string) :
  List.length (filter (is_cli name) (scan_lines n cask_name lines)) <= 1.
Proof.
  destruct (scan_lines_cases n cask_name lines)
    as [->|(before & line & after & _ & _ & _ & ->)]; cbn [filter].
  - cbn. lia.
  - destruct (is_cli name _); cbn; lia.
Qed.

Lemma scan_tools_absent (name : string) (tools : list (string * config))
  (lines : list string) :
  ~ In name (map fst tools) ->
  filter (is_cli name) (scan_tools tools lines) = [].
Proof.
  unfold scan_tools. induction tools as [|[n c] tools IH]; [reflexivity|].
  cbn [map fst snd flat_map In]. intros Hn.
  rewrite filter_app, scan_lines_other, IH; intuition.
Qed.

(** Over tools with distinct names, a name has at most one candidate. *)
Lemma scan_tools_at_most_one (name : string) (tools : list (string * config))
  (lines : list string) :
  NoDup (map fst tools) ->
  List.length (filter (is_cli name) (scan_tools tools lines)) <= 1.
Proof.
  induction tools as [|[n c] tools IH]; [cbn; lia|].
  cbn [map fst]. intros Hnd. inversion Hnd as [|? ? Hnotin Hnd']; subst.
  change (scan_tools ((n, c) :: tools) lines)
    with (scan_lines n (cask_name_of c) lines ++ scan_tools tools lines)%list.
  rewrite filter_app, length_app.
  destruct (string_dec n name) as [->|Hne].
  - rewrite (scan_tools_absent name tools lines Hnotin).
    pose proof (scan_lines_length name name (cask_name_of c) lines). cbn. lia.
  - rewrite (scan_lines_other name n (cask_name_of c) lines Hne).
    specialize (IH Hnd'). cbn. lia.
Qed.

Lemma scan_tools_In (c : value) (tools : list (string * config))
  (lines : list string) :
  In c (scan_tools tools lines) <->
  exists name config,
    In (name, config) tools
    /\ In c (scan_lines name (cask_name_of config) lines).
Proof.
  unfold scan_tools. rewrite in_flat_map. split.
  - intros ([name config] & Hin & Hc). now exists name, config.
  - intros (name & config & Hin & Hc). now exists (name, config).
Qed.

(** What [check_for_updates] returns, by the outcome of its one call to the
    package source. *)
Lemma check_for_updates_run (h : history) :
  let cmd := [get_brew_path H; "outdated"; "--cask"; "--greedy"] in
  let plan :=
    match subprocess_outcome H h cmd 30 with
    | Completed 0 stdout _ =>
        scan_tools CLI_CONFIG (split_sep "010" (strip stdout))
    | _ => []
    end in
  exists h',
    check_for_updates H h
    = (Ok (json_dumps H (Some 2) (updates_report plan)), h').
Proof.
  intros cmd plan. subst plan cmd.
  unfold check_for_updates, try_except, bind, subprocess_run, logger_warning, ret.
  destruct (subprocess_outcome H h _ 30) as [rc so se|e].
  - destruct rc as [|p|p]; cbn; eexists; reflexivity.
  - cbn. eexists; reflexivity.
Qed.

(** C10: the update plan of [check_for_updates] holds at most one candidate
    per tool name, and every candidate in it was built from the first line
    of the outdated listing that contains the cask name of its tool. *)
Theorem check_for_updates_one_candidate_per_tool (h : history) :
  let out :=
    subprocess_outcome H h [get_brew_path H; "outdated"; "--cask"; "--greedy"] 30 in
  exists plan h',
    check_for_updates H h
    = (Ok (json_dumps H (Some 2) (updates_report plan)), h')
    /\ (forall name, List.length (filter (is_cli name) plan) <= 1)
    /\ (forall c,
          In c plan ->
          exists name config stdout stderr before line after,
            In (name, config) CLI_CONFIG
            /\ out = Completed 0 stdout stderr
            /\ split_sep "010" (strip stdout) = (before ++ line :: after)%list
            /\ Forall (fun l => contains (cask_name_of config) l = false) before
            /\ contains (cask_name_of config) line = true
            /\ c = candidate name (cask_name_of config) line).
Proof.
  intros out. destruct (check_for_updates_run h) as [h' Hrun].
  cbv zeta in Hrun. fold out in Hrun.
  eexists. exists h'. split; [exact Hrun|]. split.
  - intros name. destruct out as [[|p|p] so se|e]; try (cbn; lia).
    apply scan_tools_at_most_one, keys_NoDup.
  - intros c Hc. destruct out as [[|p|p] so se|e]; try contradiction.
    apply scan_tools_In in Hc. destruct Hc as (name & config & Hin & Hc).
    destruct (scan_lines_cases name (cask_name_of config)
                (split_sep "010" (strip so)))
      as [Hnone|(before & line & after & Hlines & Hb & Hline & Hscan)].
    + rewrite Hnone in Hc. contradiction.
    + rewrite Hscan in Hc. destruct Hc as [<-|[]].
      exists name, config, so, se, before, line, after. repeat split; trivial.
Qed.

(** C4: when the package source lists its outdated casks, the candidate of a
    registered tool is built from the first line that contains the tool's
    cask name: [current] is the second blank-separated field of that line,
    or [unknown] when the line has one field; [latest] is its last field
    when the line has three fields or more, and [unknown] when it has
    fewer.  Nothing is raised. *)
Theorem check_for_updates_versions (h : history) (stdout stderr : string)
  (name : string) (config : config)
  (before : list string) (line : string) (after : list string) :
  subprocess_outcome H h [get_brew_path H; "outdated"; "--cask"; "--greedy"] 30
  = Completed 0 stdout stderr ->
  In (name, config) CLI_CONFIG ->
  split_sep "010" (strip stdout) = (before ++ line :: after)%list ->
  Forall (fun l => contains (cask_name_of config) l = false) before ->
  contains (cask_name_of config) line = true ->
  let fields := split line in
  exists plan h',
    check_for_updates H h
    = (Ok (json_dumps H (Some 2) (updates_report plan)), h')
    /\ In (VDict [ ("cli", VStr name);
                   ("cask", VStr (cask_name_of config));
                   ("current", VStr (nth 1 fields "unknown"));
                   ("latest",
                    VStr (if (List.length fields <=? 2)%nat then "unknown"
                          else last fields EmptyString));
                   ("source", VStr "cask") ])
          plan.
Proof.
  intros Hout Hin Hlines Hbefore Hline fields.
  destruct (check_for_updates_run h) as [h' Hrun].
  cbv zeta in Hrun. rewrite Hout in Hrun.
  eexists. exists h'. split; [exact Hrun|].
  apply scan_tools_In. exists name, config. split; [exact Hin|].
  rewrite Hlines, (scan_lines_first _ _ _ _ _ Hbefore Hline).
  left. unfold candidate. fold fields.
  assert (Hcur : (if (1 <? List.length fields)%nat
                  then nth 1 fields "unknown" else "unknown")
                 = nth 1 fields "unknown").
  { destruct (Nat.ltb_spec 1 (List.length fields)) as [_|Hle]; [reflexivity|].
    symmetry. apply nth_overflow. lia. }
  assert (Hlat : (if (2 <? List.length fields)%nat
                  then last fields "unknown" else "unknown")
                 = (if (List.length fields <=? 2)%nat then "unknown"
                    else last fields EmptyString)).
  { destruct (Nat.ltb_spec 2 (List.length fields)) as [Hlt|Hle];
      destruct (Nat.leb_spec (List.length fields) 2) as [Hle'|Hlt'];
      try lia; try reflexivity.
    destruct fields as [|f fields']; [cbn in Hlt; lia|].
    generalize (f :: fields') (@nil_cons _ f fields').
    intros l Hl. clear -Hl.
    induction l as [|x [|y l] IH]; [contradiction | reflexivity |].
    change (last (y :: l) "unknown" = last (y :: l) EmptyString).
    apply IH. discriminate. }
  rewrite Hcur, Hlat. reflexivity.
Qed.

(** ** Applying updates *)

Lemma lookup_Some_In {A : Type} (k : string) (d : list (string * A)) (v : A) :
  lookup k d = Some v -> In (k, v) d.
Proof.
  induction d as [|[k' v'] d IH]; cbn [lookup]; [discriminate|].
  destruct (String.eqb_spec k k') as [->|_].
  - intros [= ->]. now left.
  - intros Hl. right. now apply IH.
Qed.

(** Registered names all have an entry, so [[CLI_CONFIG[t] for t in names]]
    raises nothing. *)
Lemma configs_of_registered (names : list string) :
  Forall (fun n => in_CLI_CONFIG n = true) names ->
  exists configs,
    map_res CLI_CONFIG_at names = Ok configs
    /\ map_res CLI_CONFIG_at_value (map VStr names) = Ok configs
    /\ Forall2 (fun n c => In (n, c) CLI_CONFIG) names configs.
Proof.
  induction 1 as [|n names Hn _ (configs & E1 & E2 & Hall)].
  - exists []. repeat split. constructor.
  - unfold in_CLI_CONFIG in Hn.
    destruct (lookup n CLI_CONFIG) as [c|] eqn:El; [|discriminate].
    exists (c :: configs). cbn [map map_res CLI_CONFIG_at_value].
    unfold CLI_CONFIG_at at 1 3. rewrite El, E1, E2. repeat split.
    constructor; [now apply lookup_Some_In | exact Hall].
Qed.

Lemma filter_registered (tools : list string) :
  filter in_CLI_CONFIG tools
  = filter (fun t => if in_dec string_dec t keys then true else false) tools.
Proof.
  apply filter_ext. intros t.
  destruct (in_dec string_dec t keys) as [Hin|Hn].
  - now apply in_CLI_CONFIG_iff.
  - destruct (in_CLI_CONFIG t) eqn:E; [|reflexivity].
    apply in_CLI_CONFIG_iff in E. contradiction.
Qed.

(** C9: called with a list of at least one name, [update_tools] keeps the
    names that are keys of [CLI_CONFIG], in order, and reports nothing about
    the others.  When no name is kept it answers [No tools to update] and
    calls nothing; otherwise it makes exactly one call to the package
    source, [brew upgrade --cask] followed by the cask of every kept name, and
    reports the kept names and the outcome of that call. *)
Theorem update_tools_explicit_names (h : history) (t : string) (ts : list string) :
  let tools := t :: ts in
  let kept :=
    filter (fun t => if in_dec string_dec t keys then true else false) tools in
  exists casks,
    Forall2 (fun name c => exists config,
                 In (name, config) CLI_CONFIG /\ cask config = c)
            kept casks
    /\ let cmd := ([get_brew_path H; "upgrade"; "--cask"] ++ casks)%list in
       let out := subprocess_outcome H h cmd 300 in
       update_tools H (Some tools) h
       = match kept with
         | [] =>
             (Ok (json_dumps H None
                    (VDict [ ("message", VStr "No tools to update");
                             ("results", VList []) ])),
              h)
         | _ :: _ =>
             (Ok (json_dumps H (Some 2)
                    (VDict [ ("updated", VList (map VStr kept));
                             ("results",
                              VList [ VDict
                                ([ ("tools", VList (map VStr kept));
                                   ("source", VStr "homebrew cask") ]
                                 ++ match out with
                                    | Completed rc so se =>
                                        [ ("success", VBool (rc =? 0)%Z);
                                          ("output",
                                           VStr (if (rc =? 0)%Z then so else se)) ]
                                    | Failed e =>
                                        [ ("success", VBool false);
                                          ("error", VStr (exn_str e)) ]
                                    end)%list ]) ])),
              (h ++ [Run cmd 300 out])%list)
         end.
Proof.
  cbv zeta. rewrite <- filter_registered.
  assert (Hall : Forall (fun n => in_CLI_CONFIG n = true)
                        (filter in_CLI_CONFIG (t :: ts))).
  { apply Forall_forall. intros n Hn. now apply filter_In in Hn. }
  unfold update_tools, bind, ret.
  remember (filter in_CLI_CONFIG (t :: ts)) as kept eqn:Ek.
  destruct (configs_of_registered kept Hall) as (configs & _ & Hcfg & Hin).
  exists (map cask configs). split.
  - clear -Hin. induction Hin as [|n c names configs Hnc _ IH]; cbn [map].
    + constructor.
    + constructor; [now exists c | exact IH].
  - destruct kept as [|k kept']; [reflexivity|].
    change (is_nil (map VStr (k :: kept'))) with false. cbv iota.
    unfold lift. rewrite Hcfg.
    unfold upgrade_casks, try_except, bind, subprocess_run, ret.
    destruct (subprocess_outcome H h _ 300) as [rc so se|e]; reflexivity.
Qed.

Lemma map_res_app {A B : Type} (f : A -> res B) (l1 l2 : list A)
  (r1 r2 : list B) :
  map_res f l1 = Ok r1 -> map_res f l2 = Ok r2 ->
  map_res f (l1 ++ l2) = Ok (r1 ++ r2)%list.
Proof.
  revert r1. induction l1 as [|x l1 IH]; intros r1; cbn [map_res app].
  - now intros [= <-].
  - destruct (f x) as [y|e]; [|discriminate].
    destruct (map_res f l1) as [ys|e]; [|discriminate].
    intros [= <-] H2. rewrite (IH ys eq_refl H2). reflexivity.
Qed.

(** The names read back from an update plan are registered names. *)
Lemma scan_tools_names (tools : list (string * config)) (lines : list string) :
  exists names,
    map_res (fun t => getitem t "cli") (scan_tools tools lines)
    = Ok (map VStr names)
    /\ Forall (fun n => In n (map fst tools)) names.
Proof.
  unfold scan_tools. induction tools as [|[n c] tools (names & Hmap & Hall)].
  - exists []. split; [reflexivity | constructor].
  - cbn [flat_map fst snd map].
    destruct (scan_lines_cases n (cask_name_of c) lines)
      as [->|(before & line & after & _ & _ & _ & ->)].
    + exists names. split; [exact Hmap|].
      eapply Forall_impl; [|exact Hall]. intros a Ha. now right.
    + exists (n :: names). split.
      * apply (map_res_app _ [_] _ [VStr n]); [reflexivity | exact Hmap].
      * constructor; [now left|].
        eapply Forall_impl; [|exact Hall]. intros a Ha. now right.
Qed.

(** Called with no list, or an empty one, [update_tools] applies the plan of
    [check_for_updates]: provided [json.loads] reads back the report that
    [json.dumps] wrote, it raises nothing, and it answers [No tools to
    update] or upgrades the tools of the plan in one call. *)
Lemma update_tools_default (tools : option (list string)) (h : history) :
  tools = None \/ tools = Some [] ->
  (forall plan,
      json_loads H (json_dumps H (Some 2) (updates_report plan))
      = Ok (updates_report plan)) ->
  exists plan names h1,
    check_for_updates H h
    = (Ok (json_dumps H (Some 2) (updates_report plan)), h1)
    /\ map_res (fun t => getitem t "cli") plan = Ok (map VStr names)
    /\ match names with
       | [] =>
           update_tools H tools h
           = (Ok (json_dumps H None
                    (VDict [ ("message", VStr "No tools to update");
                             ("results", VList []) ])),
              h1)
       | _ :: _ =>
           exists casks results out,
             update_tools H tools h
             = (Ok (json_dumps H (Some 2)
                      (VDict [ ("updated", VList (map VStr names));
                               ("results", VList results) ])),
                (h1 ++ [Run ([get_brew_path H; "upgrade"; "--cask"] ++ casks)
                            300 out])%list)
       end.
Proof.
  intros Htools Hround.
  destruct (check_for_updates_run h) as [h1 Hrun]. cbv zeta in Hrun.
  set (plan := match subprocess_outcome H h _ 30 with
               | Completed 0 so _ => _
               | _ => []
               end) in Hrun.
  assert (Hnames : exists names,
             map_res (fun t => getitem t "cli") plan = Ok (map VStr names)
             /\ Forall (fun n => In n keys) names).
  { subst plan. destruct (subprocess_outcome H h _ 30) as [[|p|p] so se|e];
      try (exists []; split; [reflexivity | constructor]).
    apply scan_tools_names. }
  destruct Hnames as (names & Hmap & Hreg).
  exists plan, names, h1. split; [exact Hrun|]. split; [exact Hmap|].
  assert (Hbody : update_tools H tools h
                  = update_tools H None h)
    by (destruct Htools as [->| ->]; reflexivity).
  rewrite Hbody. unfold update_tools, bind, lift. rewrite Hrun, Hround.
  cbn [get_default updates_report lookup String.eqb Ascii.eqb Bool.eqb iter].
  rewrite Hmap.
  destruct names as [|n names'].
  - reflexivity.
  - change (is_nil (map VStr (n :: names'))) with false. cbv iota.
    assert (Hin : Forall (fun n => in_CLI_CONFIG n = true) (n :: names')).
    { eapply Forall_impl; [|exact Hreg]. intros a. apply in_CLI_CONFIG_iff. }
    destruct (configs_of_registered _ Hin) as (configs & _ & Hcfg & _).
    rewrite Hcfg.
    unfold upgrade_casks, try_except, bind, subprocess_run, ret.
    exists (map cask configs).
    destruct (subprocess_outcome H h1 _ 300) as [rc so se|e];
      eexists; eexists; reflexivity.
Qed.

(** ** Installing missing tools *)

(** The probing loop, when it ends: every probe completed or did not find
    its binary, and [missing] gained the names of the latter, in order. *)
Lemma probe_tools_sound (tools : list (string * config)) :
  forall (missing0 : list string) (h : history)
         (missing : list string) (h' : history),
    probe_tools H tools missing0 h = (Ok missing, h') ->
    exists outs,
      List.length outs = List.length tools
      /\ Forall completed_or_not_found outs
      /\ h' = (h ++ probe_events tools outs)%list
      /\ missing = (missing0 ++ not_found_names tools outs)%list.
Proof.
  induction tools as [|[name config] tools IH]; intros missing0 h missing h'.
  - cbn. intros [= <- <-]. exists []. repeat split; [constructor | |];
      now rewrite app_nil_r.
  - cbn [probe_tools]. unfold bind at 1.
    unfold try_except, bind, subprocess_run, ret, raise.
    set (cmd := ([path config] ++ version_cmd config)%list).
    destruct (subprocess_outcome H h cmd 5) as [rc so se|e] eqn:Hout.
    + intros Hrest. apply IH in Hrest.
      destruct Hrest as (outs & Hlen & Hall & -> & ->).
      exists (Completed rc so se :: outs). repeat split.
      * cbn. now rewrite Hlen.
      * constructor; [exact I | exact Hall].
      * unfold probe_events. cbn [combine map fst snd].
        unfold probe_command at 1. fold cmd. now rewrite <- app_assoc.
    + destruct (exn_cls e) eqn:Hcls; try discriminate.
      intros Hrest. apply IH in Hrest.
      destruct Hrest as (outs & Hlen & Hall & -> & ->).
      exists (Failed e :: outs). repeat split.
      * cbn. now rewrite Hlen.
      * constructor; [exact Hcls | exact Hall].
      * unfold probe_events. cbn [combine map fst snd].
        unfold probe_command at 1. fold cmd. now rewrite <- app_assoc.
      * unfold not_found_names. cbn [combine filter not_found snd].
        rewrite Hcls. cbn [map fst]. now rewrite <- app_assoc.
Qed.

(** The probing loop ends when every probe completes or does not find its
    binary. *)
Lemma probe_tools_returns (tools : list (string * config)) :
  (forall h name config,
      In (name, config) tools ->
      completed_or_not_found (subprocess_outcome H h (probe_command config) 5)) ->
  forall (missing0 : list string) (h : history),
    exists missing h', probe_tools H tools missing0 h = (Ok missing, h').
Proof.
  induction tools as [|[name config] tools IH]; intros Hprobe missing0 h.
  - cbn. now exists missing0, h.
  - cbn [probe_tools]. unfold bind at 1.
    unfold try_except, bind, subprocess_run, ret, raise.
    pose proof (Hprobe h name config (or_introl eq_refl)) as Hhere.
    unfold probe_command in Hhere.
    assert (Hrest : forall h name config,
               In (name, config) tools ->
               completed_or_not_found
                 (subprocess_outcome H h (probe_command config) 5)).
    { intros h0 n c Hin. apply (Hprobe h0 n c). now right. }
    destruct (subprocess_outcome H h _ 5) as [rc so se|e].
    + now apply IH.
    + cbn in Hhere. rewrite Hhere. now apply IH.
Qed.


(** A name is among the missing ones exactly when the probe of its tool
    did not find the binary. *)
Lemma not_found_names_In (tools : list (string * config))
  (outs : list run_outcome) (name : string) :
  In name (not_found_names tools outs) <->
  exists config out,
    In ((name, config), out) (combine tools outs) /\ not_found out = true.
Proof.
  unfold not_found_names. rewrite in_map_iff. split.
  - intros ([[n c] o] & <- & Hin). apply filter_In in Hin.
    exists c, o. exact Hin.
  - intros (c & o & Hin & Hnf). exists ((name, c), o). split; [reflexivity|].
    apply filter_In. now split.
Qed.



(** C6: a probe of [install_missing_tools] that fails with anything but
    [FileNotFoundError] (permission denied, a probe that exceeds its five
    seconds) is not caught: the exception leaves the operation, and no
    payload is returned. *)
Theorem install_missing_tools_probe_fault_escapes (h : history) (e : exn) :
  subprocess_outcome H h ["jira-ticket-cli"; "--version"] 5 = Failed e ->
  exn_cls e <> FileNotFoundError ->
  install_missing_tools H h
  = (Raise e,
     (h ++ [Run ["jira-ticket-cli"; "--version"] 5 (Failed e)])%list).
Proof.
  intros Hout Hcls.
  unfold install_missing_tools, bind. cbn [CLI_CONFIG probe_tools].
  unfold bind at 1. unfold try_except, bind, subprocess_run, raise.
  cbn [path version_cmd app]. rewrite Hout.
  destruct (exn_cls e); try reflexivity. contradiction.
Qed.

End Properties.

(* ===================================================================== *)
(** * Concrete runs *)
(* ===================================================================== *)

(** ** C7 on a host where nothing finishes in time *)

Lemma run_cli_timeout_stuck :
  let result :=
    VDict [ ("success", VBool false);
            ("error", VStr "Command timed out after 60s") ] in
  run_cli Fixtures.stuck ["cfl"; "page"; "list"] 60 []
  = (Ok result,
     [Run ["cfl"; "page"; "list"] 60
          (Failed (Exn TimeoutExpired "Command timed out"))])
  /\ field "data" result = None
  /\ field "output" result = None
  /\ field "exit_code" result = None.
Proof.
  exact (run_cli_timeout Fixtures.stuck [] ["cfl"; "page"; "list"] 60
           (Exn TimeoutExpired "Command timed out") eq_refl eq_refl).
Defined.

(** ** C8 on a name that is not registered *)

Lemma cli_help_unknown_github :
  let message :=
    "Unknown CLI: github-cli. Available: ['jira-ticket-cli', 'slck', 'cfl', 'newrelic-cli', 'gro']" in
  cli_help Fixtures.quiet "github-cli" (Some "issues") []
  = (Ok (json_dumps Fixtures.quiet None (VDict [("error", VStr message)])), [])
  /\ contains "github-cli" message = true
  /\ (forall name, In name keys -> contains name message = true).
Proof.
  apply (cli_help_unknown Fixtures.quiet [] "github-cli" (Some "issues")).
  cbn. intuition discriminate.
Defined.

(** ** C2 on a host whose commands print the empty array *)

Lemma run_cli_empty_array :
  exists result,
    fst (run_cli Fixtures.empty_array ["cfl"; "space"; "list"] 60 []) = Ok result
    /\ field "data" result = Some (VList [])
    /\ field "output" result = Some (VStr "[]")
    /\ is_set "output" result = true
    /\ (is_set "data" result = true <-> VList [] <> VNone).
Proof.
  exact (run_cli_falsy_data_keeps_output Fixtures.empty_array []
           ["cfl"; "space"; "list"] 60 0 "[]" "" (VList [])
           eq_refl eq_refl eq_refl eq_refl).
Defined.

(** ** C4 on listings of the package source *)

(** A line of two fields gives its second field as [current], not
    [unknown]; and [current] is the second field of the line even when the
    cask name is matched there, not the field after the match. *)
Lemma check_for_updates_second_field :
  (let H := Fixtures.brew_outdated "cfl 1.2.3" in
   let plan :=
     [ VDict [ ("cli", VStr "cfl"); ("cask", VStr "cfl");
               ("current", VStr "1.2.3"); ("latest", VStr "unknown");
               ("source", VStr "cask") ] ] in
   List.length (split "cfl 1.2.3") = 2
   /\ scan_tools CLI_CONFIG (split_sep "010" (strip "cfl 1.2.3")) = plan
   /\ fst (check_for_updates H [])
      = Ok (json_dumps H (Some 2) (updates_report plan)))
  /\ (let H := Fixtures.brew_outdated "old cfl 1.0 2.0" in
      let plan :=
        [ VDict [ ("cli", VStr "cfl"); ("cask", VStr "cfl");
                  ("current", VStr "cfl"); ("latest", VStr "2.0");
                  ("source", VStr "cask") ] ] in
      scan_tools CLI_CONFIG (split_sep "010" (strip "old cfl 1.0 2.0")) = plan
      /\ fst (check_for_updates H [])
         = Ok (json_dumps H (Some 2) (updates_report plan))).
Proof.
  split; repeat split; vm_compute; reflexivity.
Qed.

Lemma check_for_updates_versions_listing :
  let listing :=
    "slack-chat-cli (1.0.0) != 1.2.0" ++ String "010" "cfl (0.9.1) != 1.0.0" in
  let H := Fixtures.brew_outdated listing in
  exists plan h',
    check_for_updates H []
    = (Ok (json_dumps H (Some 2) (updates_report plan)), h')
    /\ In (VDict [ ("cli", VStr "cfl");
                   ("cask", VStr "cfl");
                   ("current", VStr "(0.9.1)");
                   ("latest", VStr "1.0.0");
                   ("source", VStr "cask") ])
          plan.
Proof.
  intros listing H.
  refine (check_for_updates_versions H [] listing "" "cfl"
            (Config "cfl" ["--version"] "--output json" "cask"
                    "open-cli-collective/tap/cfl")
            ["slack-chat-cli (1.0.0) != 1.2.0"] "cfl (0.9.1) != 1.0.0" []
            eq_refl _ eq_refl _ eq_refl).
  - cbn. intuition.
  - repeat constructor.
Defined.

(** ** C5 and C6 on hosts with a tool that cannot be probed *)



(** The run behind it: [cfl] alone is reported, after five probes, the
    registration of the tap and one batched install. *)
Example install_missing_tools_without_cfl_run :
  let H := Fixtures.without_cfl in
  let brew := "/opt/homebrew/bin/brew" in
  let not_found :=
    Failed (Exn FileNotFoundError "[Errno 2] No such file or directory: 'cfl'") in
  install_missing_tools H []
  = (Ok (json_dumps H (Some 2)
           (VDict [ ("missing_tools", VList [VStr "cfl"]);
                    ("results",
                     VList [ VDict [ ("tools", VList [VStr "cfl"]);
                                     ("source", VStr "homebrew cask");
                                     ("success", VBool true);
                                     ("output", VStr "") ] ]) ])),
     [ Run ["jira-ticket-cli"; "--version"] 5 (Completed 0 "" "");
       Run ["slck"; "--version"] 5 (Completed 0 "" "");
       Run ["cfl"; "--version"] 5 not_found;
       Run ["newrelic-cli"; "--version"] 5 (Completed 0 "" "");
       Run ["gro"; "--version"] 5 (Completed 0 "" "");
       Run [brew; "tap"; "open-cli-collective/tap"] 60 (Completed 0 "" "");
       Run [brew; "install"; "--cask"; "open-cli-collective/tap/cfl"] 300
           (Completed 0 "" "") ]).
Proof. vm_compute. reflexivity. Qed.

Lemma install_missing_tools_permission_denied :
  install_missing_tools Fixtures.jira_not_executable []
  = (Raise (Exn PermissionError
              "[Errno 13] Permission denied: 'jira-ticket-cli'"),
     ([] ++ [ Run ["jira-ticket-cli"; "--version"] 5
                  (Failed (Exn PermissionError
                             "[Errno 13] Permission denied: 'jira-ticket-cli'")) ])%list).
Proof.
  apply (install_missing_tools_probe_fault_escapes Fixtures.jira_not_executable []);
    [reflexivity | discriminate].
Defined.

(** The registration of the tap is not guarded at all: without the package
    source, its [FileNotFoundError] leaves the operation too. *)
Example install_missing_tools_without_brew_run :
  fst (install_missing_tools Fixtures.without_cfl_or_brew [])
  = Raise (Exn FileNotFoundError
             "[Errno 2] No such file or directory: '/opt/homebrew/bin/brew'").
Proof. vm_compute. reflexivity. Qed.

(** ** C9 on an empty list and on a list with an unknown name *)

(** An explicit empty list is not filtered at all: it is taken for no list,
    so the package source is asked what is outdated and [cfl], which nobody
    named, is upgraded.  And a list whose names are all unknown leads to no
    call at all. *)
Lemma update_tools_empty_list_upgrades :
  (let plan :=
     [ VDict [ ("cli", VStr "cfl"); ("cask", VStr "cfl");
               ("current", VStr "(0.9.1)"); ("latest", VStr "1.0.0");
               ("source", VStr "cask") ] ] in
   let H := Fixtures.brew_outdated_reading "cfl (0.9.1) != 1.0.0"
              [updates_report plan] in
   let listing := Completed 0 "cfl (0.9.1) != 1.0.0" "" in
   filter in_CLI_CONFIG [] = []
   /\ update_tools H (Some []) []
      = (Ok (json_dumps H (Some 2)
               (VDict [ ("updated", VList [VStr "cfl"]);
                        ("results",
                         VList [ VDict [ ("tools", VList [VStr "cfl"]);
                                         ("source", VStr "homebrew cask");
                                         ("success", VBool true);
                                         ("output", VStr "cfl (0.9.1) != 1.0.0") ] ]) ])),
         [ Run ["/opt/homebrew/bin/brew"; "outdated"; "--cask"; "--greedy"] 30
               listing;
           Run ["/opt/homebrew/bin/brew"; "upgrade"; "--cask";
                "open-cli-collective/tap/cfl"] 300 listing ]))
  /\ (let H := Fixtures.quiet in
      filter in_CLI_CONFIG ["github-cli"] = []
      /\ update_tools H (Some ["github-cli"]) []
         = (Ok (json_dumps H None
                  (VDict [ ("message", VStr "No tools to update");
                           ("results", VList []) ])),
            [])).
Proof. repeat split; vm_compute; reflexivity. Qed.


Lemma update_tools_drops_unknown :
  let H := Fixtures.quiet in
  let kept :=
    filter (fun t => if in_dec string_dec t keys then true else false)
           ["cfl"; "github-cli"; "gro"] in
  exists casks,
    Forall2 (fun name c => exists config,
                 In (name, config) CLI_CONFIG /\ cask config = c)
            kept casks
    /\ let cmd := ([get_brew_path H; "upgrade"; "--cask"] ++ casks)%list in
       let out := subprocess_outcome H [] cmd 300 in
       update_tools H (Some ["cfl"; "github-cli"; "gro"]) []
       = match kept with
         | [] =>
             (Ok (json_dumps H None
                    (VDict [ ("message", VStr "No tools to update");
                             ("results", VList []) ])),
              [])
         | _ :: _ =>
             (Ok (json_dumps H (Some 2)
                    (VDict [ ("updated", VList (map VStr kept));
                             ("results",
                              VList [ VDict
                                ([ ("tools", VList (map VStr kept));
                                   ("source", VStr "homebrew cask") ]
                                 ++ match out with
                                    | Completed rc so se =>
                                        [ ("success", VBool (rc =? 0)%Z);
                                          ("output",
                                           VStr (if (rc =? 0)%Z then so else se)) ]
                                    | Failed e =>
                                        [ ("success", VBool false);
                                          ("error", VStr (exn_str e)) ]
                                    end)%list ]) ])),
              ([] ++ [Run cmd 300 out])%list)
         end.
Proof.
  exact (update_tools_explicit_names Fixtures.quiet [] "cfl" ["github-cli"; "gro"]).
Defined.

(** The run behind it: the unknown name is dropped without a word, and one
    call upgrades the casks of the two names kept. *)
Example update_tools_drops_unknown_run :
  let H := Fixtures.quiet in
  update_tools H (Some ["cfl"; "github-cli"; "gro"]) []
  = (Ok (json_dumps H (Some 2)
           (VDict [ ("updated", VList [VStr "cfl"; VStr "gro"]);
                    ("results",
                     VList [ VDict [ ("tools", VList [VStr "cfl"; VStr "gro"]);
                                     ("source", VStr "homebrew cask");
                                     ("success", VBool true);
                                     ("output", VStr "") ] ]) ])),
     [ Run [ "/opt/homebrew/bin/brew"; "upgrade"; "--cask";
             "open-cli-collective/tap/cfl";
             "open-cli-collective/tap/google-readonly" ]
           300 (Completed 0 "" "") ]).
Proof. vm_compute. reflexivity. Qed.

(** With names that are all unknown nothing is called. *)
Example update_tools_all_unknown_run :
  let H := Fixtures.quiet in
  update_tools H (Some ["github-cli"; "jtk"]) []
  = (Ok (json_dumps H None
           (VDict [ ("message", VStr "No tools to update");
                    ("results", VList []) ])),
     []).
Proof. vm_compute. reflexivity. Qed.

(** ** C10 on a listing where two lines name the same cask *)

Example check_for_updates_first_line_only :
  let listing := "cfl (0.9.1) != 1.0.0" ++ String "010" "cfl (0.1.0) != 0.2.0" in
  scan_tools CLI_CONFIG (split_sep "010" (strip listing))
  = [ VDict [ ("cli", VStr "cfl"); ("cask", VStr "cfl");
              ("current", VStr "(0.9.1)"); ("latest", VStr "1.0.0");
              ("source", VStr "cask") ] ].
Proof. vm_compute. reflexivity. Qed.

(* ===================================================================== *)
(** * Further properties of the operations *)
(* ===================================================================== *)

(** ** Tokens *)

Lemma append_empty (s : string) : s ++ "" = s.
Proof. induction s as [|c s IH]; cbn; [reflexivity | now rewrite IH]. Qed.

Lemma append_assoc (a b c : string) : (a ++ b) ++ c = a ++ b ++ c.
Proof. induction a as [|x a IH]; cbn; [reflexivity | now rewrite IH]. Qed.

Lemma is_empty_append (a b : string) :
  is_empty (a ++ b) = is_empty a && is_empty b.
Proof. destruct a; reflexivity. Qed.

(** Splitting a text at one of its blanks: the tokens before it, then the
    tokens after it. *)
Lemma split_from_blank (s1 : string) :
  forall (tok : string) (c : ascii) (s2 : string),
    isspace c = true ->
    split_from tok (s1 ++ String c s2)
    = (split_from tok s1 ++ split s2)%list.
Proof.
  induction s1 as [|d s1 IH]; intros tok c s2 Hc.
  - cbn [append split_from]. rewrite Hc.
    destruct (is_empty tok); reflexivity.
  - cbn [append split_from].
    destruct (isspace d); [destruct (is_empty tok)|]; cbn [app];
      now rewrite IH.
Qed.

(** A text without whitespace is one token, or none when it is empty. *)
Lemma split_from_word (s : string) :
  forall tok,
    has_space s = false ->
    split_from tok s = if is_empty (tok ++ s) then [] else [tok ++ s].
Proof.
  induction s as [|c s IH]; intros tok Hs.
  - cbn [split_from]. now rewrite append_empty.
  - unfold has_space in Hs. cbn in Hs.
    apply orb_false_iff in Hs. destruct Hs as [Hc Hs].
    cbn [split_from]. rewrite Hc, (IH _ Hs).
    unfold snoc. now rewrite append_assoc.
Qed.

Lemma split_word (s : string) :
  has_space s = false -> is_empty s = false -> split s = [s].
Proof.
  intros Hs Hne. unfold split. rewrite (split_from_word s "" Hs).
  cbn [append]. now rewrite Hne.
Qed.

Lemma has_space_append (a b : string) :
  has_space (a ++ b) = has_space a || has_space b.
Proof.
  unfold has_space. induction a as [|c a IH]; cbn; [reflexivity|].
  now rewrite IH, orb_assoc.
Qed.

(** The decimal digits of a number hold no whitespace. *)
Lemma string_of_uint_no_space (d : Decimal.uint) :
  has_space (NilEmpty.string_of_uint d) = false.
Proof. induction d; cbn; try reflexivity; exact IHd. Qed.

Lemma str_of_int_word (n : Z) :
  has_space (str_of_int n) = false /\ is_empty (str_of_int n) = false.
Proof.
  unfold str_of_int, NilZero.string_of_int, NilZero.string_of_uint.
  destruct (Z.to_int n) as [d|d]; destruct d; cbn;
    try (split; reflexivity);
    split; try reflexivity; apply string_of_uint_no_space.
Qed.


Lemma split_blank (s1 s2 : string) :
  split (s1 ++ String " " s2) = (split s1 ++ split s2)%list.
Proof. unfold split at 1 2. now apply split_from_blank. Qed.

(** An argument string made of a first part, a flag, a number and a rest,
    with one blank between them. *)
Lemma split_flag_number (s1 flag : string) (n : Z) (rest : string) :
  split (s1 ++ String " " (flag ++ String " " (str_of_int n ++ String " " rest)))
  = (split s1 ++ split flag ++ [str_of_int n] ++ split rest)%list.
Proof.
  rewrite !split_blank.
  destruct (str_of_int_word n) as [Hs Hne].
  now rewrite (split_word _ Hs Hne).
Qed.

Lemma has_char_snoc (sep : ascii) (tok : string) (c : ascii) :
  has_char sep (snoc tok c) = has_char sep tok || Ascii.eqb sep c.
Proof.
  unfold has_char, snoc. induction tok as [|d tok IH]; cbn.
  - now rewrite orb_false_r.
  - now rewrite IH, orb_assoc.
Qed.

(** No field of [s.split(sep)] holds the separator. *)
Lemma split_sep_from_fields (sep : ascii) (s : string) :
  forall field,
    has_char sep field = false ->
    Forall (fun f => has_char sep f = false) (split_sep_from sep field s).
Proof.
  induction s as [|c s IH]; intros field Hfield; cbn [split_sep_from].
  - now constructor.
  - destruct (Ascii.eqb_spec c sep) as [->|Hne].
    + constructor; [exact Hfield | now apply IH].
    + apply IH. rewrite has_char_snoc, Hfield.
      destruct (Ascii.eqb_spec sep c); [congruence | reflexivity].
Qed.

Lemma first_line_one_line (s : string) :
  has_char "010" (hd EmptyString (split_sep "010" s)) = false.
Proof.
  pose proof (split_sep_from_fields "010" s "" eq_refl) as Hall.
  unfold split_sep. destruct (split_sep_from "010" "" s); [reflexivity|].
  now inversion Hall.
Qed.

(** The entry of [CLI_CONFIG] that an operation reads, evaluated. *)
Ltac registered_config :=
  match goal with
  | |- context [CLI_CONFIG_at ?name] =>
      let c := eval vm_compute in (CLI_CONFIG_at name) in
      change (CLI_CONFIG_at name) with c; cbv beta iota
  end.

Section Further.

Context (H : host).

(** ** The executor *)

(** X1: [run_cli] raises nothing and runs exactly one subprocess.  Its
    result has one of two shapes: the envelope of a completed process, with
    [success] equal to [returncode == 0], an [exit_code] and no [error]; or a
    failure, with [success] false and an [error] message, and neither
    [exit_code] nor [data] nor [output]. *)
Theorem run_cli_two_shapes (cmd : list string) (timeout : Z) (h : history) :
  let out := subprocess_outcome H h cmd timeout in
  exists result,
    run_cli H cmd timeout h = (Ok result, (h ++ [Run cmd timeout out])%list)
    /\ ((exists rc so se data,
            out = Completed rc so se
            /\ field "success" result = Some (VBool (rc =? 0)%Z)
            /\ field "exit_code" result = Some (VInt rc)
            /\ field "data" result = Some data
            /\ field "error" result = None)
        \/ (exists message,
              field "success" result = Some (VBool false)
              /\ field "error" result = Some (VStr message)
              /\ field "exit_code" result = None
              /\ field "data" result = None
              /\ field "output" result = None)).
Proof.
  intros out. subst out.
  unfold run_cli, try_except, bind, subprocess_run, lift, ret, raise.
  destruct (subprocess_outcome H h cmd timeout) as [rc so se|e].
  - destruct (truthy (VStr (strip so))).
    + destruct (json_loads H (strip so)) as [data|e].
      * eexists. split; [reflexivity|]. left.
        exists rc, so, se, data. repeat split.
      * destruct (exn_cls e) eqn:E; cbv beta iota; rewrite ?E;
          eexists; (split; [reflexivity|]);
          solve [ left; exists rc, so, se, VNone; repeat split
                | right; eexists; repeat split ].
    + eexists. split; [reflexivity|]. left.
      exists rc, so, se, VNone. repeat split.
  - destruct (exn_cls e); eexists; (split; [reflexivity|]);
      right; eexists; repeat split.
Qed.

(** X2: when the process cannot be launched and the fault is not a timeout,
    [run_cli] reports it in [error]: a missing executable as
    [CLI not found: ] followed by the text of the exception, any other fault
    (permission denied, ...) as the text of the exception alone. *)
Theorem run_cli_launch_failure (h : history) (cmd : list string) (timeout : Z)
  (e : exn) :
  subprocess_outcome H h cmd timeout = Failed e ->
  exn_cls e <> TimeoutExpired ->
  run_cli H cmd timeout h
  = (Ok (VDict [ ("success", VBool false);
                 ("error",
                  VStr (match exn_cls e with
                        | FileNotFoundError => "CLI not found: " ++ exn_str e
                        | _ => exn_str e
                        end)) ]),
     (h ++ [Run cmd timeout (Failed e)])%list).
Proof.
  intros Hout Hcls.
  unfold run_cli, try_except, bind, subprocess_run. rewrite Hout.
  destruct (exn_cls e); try reflexivity. contradiction.
Qed.

(** X3: a process that completed is still reported as a failure when the
    decoder raises anything but [JSONDecodeError] on its output: the result
    has [success] false and an [error], and the exit code and the output of
    the process are lost, whatever the exit code was. *)
Theorem run_cli_decoder_fault (h : history) (cmd : list string) (timeout rc : Z)
  (stdout stderr : string) (e : exn) :
  subprocess_outcome H h cmd timeout = Completed rc stdout stderr ->
  is_empty (strip stdout) = false ->
  json_loads H (strip stdout) = Raise e ->
  exn_cls e <> JSONDecodeError ->
  exists message,
    fst (run_cli H cmd timeout h)
    = Ok (VDict [ ("success", VBool false); ("error", VStr message) ])
    /\ (exn_cls e <> TimeoutExpired -> exn_cls e <> FileNotFoundError ->
        message = exn_str e).
Proof.
  intros Hout Hne Hdec Hcls.
  unfold run_cli, try_except, bind, subprocess_run, lift, raise.
  rewrite Hout. cbn [truthy]. rewrite Hne. cbn [negb]. rewrite Hdec.
  destruct (exn_cls e) eqn:E; cbv beta iota; rewrite ?E;
    try contradiction;
    eexists; (split; [reflexivity|]); intros; congruence.
Qed.

(** X5: when stdout is blank, is refused by the decoder with
    [JSONDecodeError], or decodes to [None] (the document [null]), [run_cli]
    returns the full envelope with [data] [None] and [output] the trimmed
    stdout; a blank stdout gives the empty string, and the decoder is not
    consulted for it.  [stderr] is the trimmed stderr, or [None] when that
    is empty. *)
Theorem run_cli_raw_output (h : history) (cmd : list string) (timeout rc : Z)
  (stdout stderr : string) :
  subprocess_outcome H h cmd timeout = Completed rc stdout stderr ->
  is_empty (strip stdout) = true
  \/ json_loads H (strip stdout) = Ok VNone
  \/ (exists e, json_loads H (strip stdout) = Raise e
                /\ exn_cls e = JSONDecodeError) ->
  fst (run_cli H cmd timeout h)
  = Ok (VDict [ ("success", VBool (rc =? 0)%Z);
                ("exit_code", VInt rc);
                ("data", VNone);
                ("output", VStr (strip stdout));
                ("stderr",
                 if is_empty (strip stderr) then VNone
                 else VStr (strip stderr)) ]).
Proof.
  intros Hout Hcases.
  unfold run_cli, try_except, bind, subprocess_run, lift, ret, raise.
  rewrite Hout. cbn [truthy].
  assert (Herr : (if negb (is_empty (strip stderr))
                  then VStr (strip stderr) else VNone)
                 = (if is_empty (strip stderr) then VNone
                    else VStr (strip stderr)))
    by (destruct (is_empty (strip stderr)); reflexivity).
  destruct (is_empty (strip stdout)) eqn:Hempty; cbn [negb].
  - cbn. now rewrite Herr.
  - destruct Hcases as [Hc|[Hnull|(e & Hdec & Hcls)]]; [discriminate| |].
    + rewrite Hnull. cbn. now rewrite Herr.
    + rewrite Hdec. cbv beta iota. rewrite Hcls. cbn. now rewrite Herr.
Qed.

(** ** Pass-through operations and help *)



(** ** Convenience wrappers *)

(** X8: [jira_get_issue] runs [jira-ticket-cli issues get], the tokens of
    the issue key, then [--output json].  The key is tokenized like any
    argument string: a key without whitespace is exactly one argument, a key
    with blanks becomes several, and an empty key leaves none. *)
Theorem jira_get_issue_command (issue_key : string) (h : history) :
  let cmd := ([ "jira-ticket-cli"; "issues"; "get" ] ++ split issue_key
              ++ [ "--output"; "json" ])%list in
  (exists result,
      jira_get_issue H issue_key h
      = (Ok (json_dumps H (Some 2) result),
         (h ++ [Run cmd 60 (subprocess_outcome H h cmd 60)])%list))
  /\ (has_space issue_key = false -> is_empty issue_key = false ->
      cmd = [ "jira-ticket-cli"; "issues"; "get"; issue_key;
              "--output"; "json" ]).
Proof.
  intros cmd. split.
  - assert (Hsplit : split ("issues get " ++ issue_key ++ " --output json")
                     = ([ "issues"; "get" ] ++ split issue_key
                        ++ [ "--output"; "json" ])%list).
    { change (split ("issues get " ++ issue_key ++ " --output json"))
        with ("issues" :: "get"
              :: split_from "" (issue_key ++ String " " "--output json")).
      now rewrite split_from_blank. }
    destruct (jira_cli_run H ("issues get " ++ issue_key ++ " --output json") h)
      as [result Hrun].
    cbv zeta in Hrun. rewrite Hsplit in Hrun.
    exists result. exact Hrun.
  - intros Hs Hne. subst cmd. now rewrite (split_word issue_key Hs Hne).
Qed.

(** X9: each search wrapper, and [calendar_today], runs its tool with a
    fixed command around the tokens of the query wrapped in double quotes;
    the count or limit is one argument, in decimal.  The quote characters
    are not removed: a query without whitespace reaches the tool as one
    argument that still carries both quotes. *)
Theorem search_wrappers_commands (query : string) (n : Z) (h : history) :
  let quoted := split (dquote ++ query ++ dquote) in
  (forall op cmd,
      In (op, cmd)
         [ (slack_search_messages H query n,
            [ "slck"; "search"; "messages" ] ++ quoted
            ++ [ "--count"; str_of_int n; "--output"; "json" ]);
           (confluence_search H query n,
            [ "cfl"; "search" ] ++ quoted
            ++ [ "--limit"; str_of_int n; "--output"; "json" ]);
           (gmail_search H query n,
            [ "gro"; "gmail"; "search"; "--query" ] ++ quoted
            ++ [ "--limit"; str_of_int n; "--json" ]);
           (drive_search H query n,
            [ "gro"; "drive"; "search" ] ++ quoted
            ++ [ "--limit"; str_of_int n; "--json" ]);
           (calendar_today H, [ "gro"; "calendar"; "today"; "--json" ]) ]%list ->
      exists result,
        op h = (Ok (json_dumps H (Some 2) result),
                (h ++ [Run cmd 60 (subprocess_outcome H h cmd 60)])%list))
  /\ (has_space query = false -> quoted = [dquote ++ query ++ dquote]).
Proof.
  intros quoted. split.
  - assert (Hshape : forall before flag rest,
               split (before
                      ++ String " " ((dquote ++ query ++ dquote)
                         ++ String " " (flag
                            ++ String " " (str_of_int n ++ String " " rest))))
               = (split before ++ quoted ++ split flag ++ [str_of_int n]
                  ++ split rest)%list).
    { intros before flag rest.
      now rewrite split_blank, split_flag_number. }
    intros op cmd Hin. cbn [In] in Hin.
    destruct Hin as [Heq|[Heq|[Heq|[Heq|[Heq|[]]]]]];
      injection Heq as <- <-.
    + destruct (slack_cli_run H
                  ("search messages " ++ dquote ++ query ++ dquote
                   ++ " --count " ++ str_of_int n ++ " --output json") h)
        as [result Hrun].
      exists result. cbv zeta in Hrun.
      replace ("search messages " ++ dquote ++ query ++ dquote
               ++ " --count " ++ str_of_int n ++ " --output json")
        with ("search messages"
              ++ String " " ((dquote ++ query ++ dquote)
                 ++ String " " ("--count"
                    ++ String " " (str_of_int n ++ String " " "--output json"))))
        in Hrun at 2 3 by (rewrite !append_assoc; reflexivity).
      rewrite Hshape in Hrun. exact Hrun.
    + destruct (confluence_cli_run H
                  ("search " ++ dquote ++ query ++ dquote
                   ++ " --limit " ++ str_of_int n ++ " --output json") h)
        as [result Hrun].
      exists result. cbv zeta in Hrun.
      replace ("search " ++ dquote ++ query ++ dquote
               ++ " --limit " ++ str_of_int n ++ " --output json")
        with ("search"
              ++ String " " ((dquote ++ query ++ dquote)
                 ++ String " " ("--limit"
                    ++ String " " (str_of_int n ++ String " " "--output json"))))
        in Hrun at 2 3 by (rewrite !append_assoc; reflexivity).
      rewrite Hshape in Hrun. exact Hrun.
    + destruct (google_cli_run H
                  ("gmail search --query " ++ dquote ++ query ++ dquote
                   ++ " --limit " ++ str_of_int n ++ " --json") h)
        as [result Hrun].
      exists result. cbv zeta in Hrun.
      replace ("gmail search --query " ++ dquote ++ query ++ dquote
               ++ " --limit " ++ str_of_int n ++ " --json")
        with ("gmail search --query"
              ++ String " " ((dquote ++ query ++ dquote)
                 ++ String " " ("--limit"
                    ++ String " " (str_of_int n ++ String " " "--json"))))
        in Hrun at 2 3 by (rewrite !append_assoc; reflexivity).
      rewrite Hshape in Hrun. exact Hrun.
    + destruct (google_cli_run H
                  ("drive search " ++ dquote ++ query ++ dquote
                   ++ " --limit " ++ str_of_int n ++ " --json") h)
        as [result Hrun].
      exists result. cbv zeta in Hrun.
      replace ("drive search " ++ dquote ++ query ++ dquote
               ++ " --limit " ++ str_of_int n ++ " --json")
        with ("drive search"
              ++ String " " ((dquote ++ query ++ dquote)
                 ++ String " " ("--limit"
                    ++ String " " (str_of_int n ++ String " " "--json"))))
        in Hrun at 2 3 by (rewrite !append_assoc; reflexivity).
      rewrite Hshape in Hrun. exact Hrun.
    + destruct (google_cli_run H "calendar today --json" h) as [result Hrun].
      exists result. exact Hrun.
  - intros Hs. subst quoted. apply split_word; [|reflexivity].
    rewrite !has_space_append, Hs. reflexivity.
Qed.

(** ** The status listing *)

(** One turn of the loop of [list_tools_status]. *)
Lemma tool_status_of_entry (name : string) (config : config) (h : history) :
  exists entry probe query,
    tool_status_of H name config h
    = (Ok entry, (h ++ status_events (get_brew_path H) config probe query)%list)
    /\ status_entry config probe query entry.
Proof.
  unfold tool_status_of, try_except, bind, subprocess_run, ret.
  fold (probe_command config).
  destruct (subprocess_outcome H h (probe_command config) 5)
    as [rc so se|e] eqn:Hprobe.
  - match goal with
    | |- context [subprocess_outcome H ?h0 ?c 30] =>
        destruct (subprocess_outcome H h0 c 30) as [rc' so' se'|e'] eqn:Hquery
    end.
    + exists (VDict
                ([ ("source", VStr (source config));
                   ("cask", VStr (cask config));
                   ("installed", VBool true);
                   ("version",
                    VStr (hd EmptyString
                            (split_sep "010"
                               (if is_empty (strip so) then strip se
                                else strip so)))) ]
                 ++ (if (rc' =? 0)%Z
                     then [ ("update_available",
                             VBool (contains (cask_name_of config) so')) ]
                     else []))%list),
             (Completed rc so se), (Some (Completed rc' so' se')).
      split.
      * unfold status_events. cbn [truthy].
        destruct (is_empty (strip so)); destruct (rc' =? 0)%Z;
          cbn [negb]; rewrite <- !app_assoc; reflexivity.
      * split; [reflexivity|]. split; [reflexivity|].
        eexists. eexists. split; [reflexivity|]. split; [reflexivity|].
        split; [destruct (rc' =? 0)%Z; reflexivity|].
        split; [reflexivity|]. split; [reflexivity|].
        split; [apply first_line_one_line|].
        destruct rc' as [|p|p]; reflexivity.
    + exists (VDict
                [ ("source", VStr (source config));
                  ("cask", VStr (cask config));
                  ("installed", VBool true);
                  ("version",
                   VStr (hd EmptyString
                           (split_sep "010"
                              (if is_empty (strip so) then strip se
                               else strip so)))) ]),
             (Completed rc so se), (Some (Failed e')).
      split.
      * unfold status_events. cbn [truthy].
        destruct (is_empty (strip so));
          cbn [negb]; rewrite <- !app_assoc; reflexivity.
      * split; [reflexivity|]. split; [reflexivity|].
        eexists. eexists. repeat (split; [reflexivity|]).
        split; [apply first_line_one_line | reflexivity].
  - eexists. exists (Failed e), None. split; [reflexivity|]. repeat split.
Qed.

Lemma list_tools_status_loop_entries (tools : list (string * config)) :
  forall (status : list (string * value)) (h : history),
    exists added runs,
      list_tools_status_loop H tools status h
      = (Ok (status ++ added)%list,
         (h ++ listing_events (get_brew_path H) tools runs)%list)
      /\ map fst added = map fst tools
      /\ List.length runs = List.length tools
      /\ Forall2 (fun tr entry =>
                    status_entry (snd (fst tr)) (fst (snd tr)) (snd (snd tr)) entry)
                 (combine tools runs) (map snd added).
Proof.
  induction tools as [|[name config] tools IH]; intros status h.
  - exists [], []. cbn. rewrite !app_nil_r. repeat split. constructor.
  - cbn [list_tools_status_loop]. unfold bind.
    destruct (tool_status_of_entry name config h)
      as (entry & probe & query & -> & Hentry).
    destruct (IH (status ++ [(name, entry)])%list
                 (h ++ status_events (get_brew_path H) config probe query)%list)
      as (added & runs & -> & Hnames & Hlen & Hentries).
    exists ((name, entry) :: added), ((probe, query) :: runs).
    rewrite <- !app_assoc.
    split; [reflexivity|]. split; [cbn; now rewrite Hnames|].
    split; [cbn; now rewrite Hlen|].
    cbn [combine map snd]. now constructor.
Qed.

(** X10: [list_tools_status] raises nothing.  Its listing has one entry per
    registered tool, in the order of [CLI_CONFIG]; each entry gives the
    source and cask of the tool and either says it is installed, with a
    version of one line, or says it is not, with the error of the probe and
    no update flag.  The subprocesses it runs are, tool after tool, one
    probe of the tool and, exactly when that probe completed, one question
    to the package source. *)
Theorem list_tools_status_entries (h : history) :
  exists status runs,
    list_tools_status H h
    = (Ok (json_dumps H (Some 2) (VDict status)),
       (h ++ listing_events (get_brew_path H) CLI_CONFIG runs)%list)
    /\ map fst status = keys
    /\ List.length runs = List.length CLI_CONFIG
    /\ Forall2 (fun tr entry =>
                  status_entry (snd (fst tr)) (fst (snd tr)) (snd (snd tr)) entry)
               (combine CLI_CONFIG runs) (map snd status).
Proof.
  unfold list_tools_status, bind.
  destruct (list_tools_status_loop_entries CLI_CONFIG [] h)
    as (status & runs & -> & Hnames & Hlen & Hentries).
  exists status, runs. cbn [app]. repeat split; assumption.
Qed.

(** ** The update check *)

(** X11: when the package source cannot be asked (the call raises) or
    exits with a code other than 0, [check_for_updates] raises nothing and
    answers exactly as if nothing were outdated: no tools,
    [updates_available] false and the message [All tools are up to date].
    An exception is only logged, as a warning. *)
Theorem check_for_updates_source_failure (h : history) :
  let cmd := [get_brew_path H; "outdated"; "--cask"; "--greedy"] in
  let out := subprocess_outcome H h cmd 30 in
  (forall stdout stderr, out <> Completed 0 stdout stderr) ->
  check_for_updates H h
  = (Ok (json_dumps H (Some 2)
           (VDict [ ("updates_available", VBool false);
                    ("tools", VList []);
                    ("message", VStr "All tools are up to date") ])),
     (h ++ Run cmd 30 out
        :: match out with
           | Failed e => [Warn ("Failed to check cask updates: " ++ exn_str e)]
           | Completed _ _ _ => []
           end)%list).
Proof.
  intros cmd out Hfail. subst out cmd.
  unfold check_for_updates, try_except, bind, subprocess_run, logger_warning, ret.
  destruct (subprocess_outcome H h _ 30) as [rc so se|e].
  - destruct rc as [|p|p]; [now elim (Hfail so se) | reflexivity | reflexivity].
  - cbn. now rewrite <- app_assoc.
Qed.

Lemma scan_lines_listed (name cask_name : string) (lines : list string) :
  map (field "cli") (scan_lines name cask_name lines)
  = if existsb (contains cask_name) lines then [Some (VStr name)] else [].
Proof.
  induction lines as [|l lines IH]; [reflexivity|].
  cbn [scan_lines existsb]. destruct (contains cask_name l); [reflexivity|].
  exact IH.
Qed.

(** X12: when the package source answers, the tools in the plan of
    [check_for_updates] are exactly the registered tools whose cask name
    occurs in some line of the listing, each once, in the order of
    [CLI_CONFIG] and not in the order of the listing.  The plan is empty
    exactly when no line contains a registered cask name. *)
Theorem check_for_updates_plan_tools (h : history) (stdout stderr : string) :
  subprocess_outcome H h [get_brew_path H; "outdated"; "--cask"; "--greedy"] 30
  = Completed 0 stdout stderr ->
  let lines := split_sep "010" (strip stdout) in
  exists plan h',
    check_for_updates H h
    = (Ok (json_dumps H (Some 2) (updates_report plan)), h')
    /\ map (field "cli") plan
       = map (fun nc => Some (VStr (fst nc))) (filter (listed lines) CLI_CONFIG)
    /\ (plan = [] <-> forall nc, In nc CLI_CONFIG -> listed lines nc = false).
Proof.
  intros Hout lines.
  destruct (check_for_updates_run H h) as [h' Hrun].
  cbv zeta in Hrun. rewrite Hout in Hrun. fold lines in Hrun.
  exists (scan_tools CLI_CONFIG lines), h'. split; [exact Hrun|].
  assert (Hmap : forall tools,
             map (field "cli") (scan_tools tools lines)
             = map (fun nc => Some (VStr (fst nc))) (filter (listed lines) tools)).
  { unfold scan_tools. induction tools as [|[n c] tools IH]; [reflexivity|].
    cbn [flat_map filter fst snd]. rewrite map_app, scan_lines_listed, IH.
    unfold listed at 2. cbn [snd].
    destruct (existsb (contains (cask_name_of c)) lines); reflexivity. }
  split; [apply Hmap|].
  split.
  - intros Hnil nc Hin. specialize (Hmap CLI_CONFIG). rewrite Hnil in Hmap.
    destruct (listed lines nc) eqn:E; [|reflexivity].
    assert (Hf : In nc (filter (listed lines) CLI_CONFIG))
      by (apply filter_In; now split).
    destruct (filter (listed lines) CLI_CONFIG); [contradiction | discriminate].
  - intros Hnone. specialize (Hmap CLI_CONFIG).
    assert (Hf : filter (listed lines) CLI_CONFIG = []).
    { destruct (filter (listed lines) CLI_CONFIG) as [|nc l] eqn:E; [reflexivity|].
      assert (Hin : In nc (filter (listed lines) CLI_CONFIG))
        by (rewrite E; now left).
      apply filter_In in Hin. destruct Hin as [Hin Hl].
      rewrite (Hnone nc Hin) in Hl. discriminate. }
    rewrite Hf in Hmap.
    destruct (scan_tools CLI_CONFIG lines); [reflexivity | discriminate].
Qed.

(** X13: a listing that is just the cask name of a registered tool, with no
    version beside it, yields one candidate, for that tool alone, with
    [current] and [latest] both [unknown]: no registered cask name occurs
    inside another. *)
Theorem check_for_updates_bare_name (h : history) (stdout stderr : string)
  (name : string) (config : config) :
  subprocess_outcome H h [get_brew_path H; "outdated"; "--cask"; "--greedy"] 30
  = Completed 0 stdout stderr ->
  In (name, config) CLI_CONFIG ->
  strip stdout = cask_name_of config ->
  exists h',
    check_for_updates H h
    = (Ok (json_dumps H (Some 2)
             (updates_report
                [ VDict [ ("cli", VStr name);
                          ("cask", VStr (cask_name_of config));
                          ("current", VStr "unknown");
                          ("latest", VStr "unknown");
                          ("source", VStr "cask") ] ])),
       h').
Proof.
  intros Hout Hin Hstrip.
  destruct (check_for_updates_run H h) as [h' Hrun].
  cbv zeta in Hrun. rewrite Hout, Hstrip in Hrun.
  exists h'. rewrite Hrun. clear Hrun Hout Hstrip.
  cbn [In CLI_CONFIG] in Hin.
  repeat (destruct Hin as [Heq|Hin];
          [injection Heq as <- <-; vm_compute; reflexivity|]).
  destruct Hin.
Qed.

(** ** Applying updates and installing *)

Lemma getitem_field (t : value) (k : string) (x : value) :
  getitem t k = Ok x -> field k t = Some x.
Proof.
  destruct t; cbn; try discriminate.
  destruct (lookup k d); [now intros [= ->] | discriminate].
Qed.

Lemma map_res_getitem_fields (k : string) (l : list value) :
  forall xs,
    map_res (fun t => getitem t k) l = Ok xs ->
    map (field k) l = map Some xs.
Proof.
  induction l as [|t l IH]; intros xs; cbn [map_res map].
  - now intros [= <-].
  - destruct (getitem t k) as [x|e] eqn:E; [|discriminate].
    destruct (map_res (fun t => getitem t k) l) as [ys|e]; [|discriminate].
    intros [= <-]. cbn [map]. now rewrite (getitem_field _ _ _ E), (IH ys).
Qed.

(** X14: called with no list, or with an empty one, [update_tools] asks
    [check_for_updates] and, provided [json.loads] reads back the report
    that [json.dumps] wrote, applies exactly its plan: with an empty plan it
    answers [No tools to update] and calls nothing more; otherwise it makes
    one call, [brew upgrade --cask] with the cask of every tool of the plan,
    and reports those tools as updated.  Nothing is raised. *)
Theorem update_tools_applies_plan (tools : option (list string)) (h : history) :
  tools = None \/ tools = Some [] ->
  let plan :=
    match subprocess_outcome H h
            [get_brew_path H; "outdated"; "--cask"; "--greedy"] 30 with
    | Completed 0 stdout _ =>
        scan_tools CLI_CONFIG (split_sep "010" (strip stdout))
    | _ => []
    end in
  json_loads H (json_dumps H (Some 2) (updates_report plan))
  = Ok (updates_report plan) ->
  exists names casks h1,
    check_for_updates H h
    = (Ok (json_dumps H (Some 2) (updates_report plan)), h1)
    /\ map (field "cli") plan = map (fun n => Some (VStr n)) names
    /\ Forall2 (fun name c => exists config,
                   In (name, config) CLI_CONFIG /\ cask config = c)
               names casks
    /\ match names with
       | [] =>
           update_tools H tools h
           = (Ok (json_dumps H None
                    (VDict [ ("message", VStr "No tools to update");
                             ("results", VList []) ])),
              h1)
       | _ :: _ =>
           let cmd := ([get_brew_path H; "upgrade"; "--cask"] ++ casks)%list in
           exists results,
             update_tools H tools h
             = (Ok (json_dumps H (Some 2)
                      (VDict [ ("updated", VList (map VStr names));
                               ("results", VList results) ])),
                (h1 ++ [Run cmd 300 (subprocess_outcome H h1 cmd 300)])%list)
       end.
Proof.
  intros Htools plan Hround.
  destruct (check_for_updates_run H h) as [h1 Hrun]. cbv zeta in Hrun.
  fold plan in Hrun.
  assert (Hnames : exists names,
             map_res (fun t => getitem t "cli") plan = Ok (map VStr names)
             /\ Forall (fun n => In n keys) names).
  { subst plan. destruct (subprocess_outcome H h _ 30) as [[|p|p] so se|e];
      try (exists []; split; [reflexivity | constructor]).
    apply scan_tools_names. }
  destruct Hnames as (names & Hmap & Hreg).
  assert (Hin : Forall (fun n => in_CLI_CONFIG n = true) names).
  { eapply Forall_impl; [|exact Hreg]. intros a. apply in_CLI_CONFIG_iff. }
  destruct (configs_of_registered names Hin) as (configs & _ & Hcfg & Hall).
  exists names, (map cask configs), h1.
  split; [exact Hrun|]. split.
  { rewrite (map_res_getitem_fields _ _ _ Hmap), map_map. reflexivity. }
  split.
  { clear -Hall. induction Hall as [|n c ns cs Hnc _ IH]; cbn [map];
      constructor; [now exists c | exact IH]. }
  assert (Hbody : update_tools H tools h = update_tools H None h)
    by (destruct Htools as [->| ->]; reflexivity).
  rewrite Hbody. unfold update_tools, bind, lift. rewrite Hrun, Hround.
  cbn [get_default updates_report lookup String.eqb Ascii.eqb Bool.eqb iter].
  rewrite Hmap.
  destruct names as [|n names']; [reflexivity|].
  change (is_nil (map VStr (n :: names'))) with false. cbv iota zeta.
  rewrite Hcfg.
  unfold upgrade_casks, try_except, bind, subprocess_run, ret.
  destruct (subprocess_outcome H h1 _ 300) as [rc so se|e];
    eexists; reflexivity.
Qed.

Lemma take_length (n : nat) (s : string) : String.length (take n s) <= n.
Proof.
  unfold take. revert s. induction n as [|n IH]; intros [|c s]; cbn; try lia.
  specialize (IH s). lia.
Qed.

Lemma take_prefix (n : nat) (s : string) : String.prefix (take n s) s = true.
Proof.
  unfold take. revert s. induction n as [|n IH]; intros [|c s]; cbn;
    try reflexivity.
  destruct (ascii_dec c c) as [_|Hne]; [apply IH | now elim Hne].
Qed.

(** X15: the batched install of [install_missing_tools] raises nothing: it
    makes one call, bounded by 300 seconds, and reports one result for all
    the missing tools.  When the call completes, [output] is at most the
    first 500 characters of stdout (on exit code 0) or of stderr; when it
    raises, the result has [success] false and the error, and no output. *)
Theorem install_casks_report (missing casks : list string) (h : history) :
  let cmd := ([get_brew_path H; "install"; "--cask"] ++ casks)%list in
  let out := subprocess_outcome H h cmd 300 in
  exists entry,
    install_casks H missing casks h
    = (Ok [entry], (h ++ [Run cmd 300 out])%list)
    /\ field "tools" entry = Some (VList (map VStr missing))
    /\ match out with
       | Completed rc stdout stderr =>
           field "success" entry = Some (VBool (rc =? 0)%Z)
           /\ field "error" entry = None
           /\ exists text,
                field "output" entry = Some (VStr text)
                /\ String.length text <= 500
                /\ String.prefix text (if (rc =? 0)%Z then stdout else stderr)
                   = true
       | Failed e =>
           field "success" entry = Some (VBool false)
           /\ field "error" entry = Some (VStr (exn_str e))
           /\ field "output" entry = None
       end.
Proof.
  intros cmd out. subst out cmd.
  unfold install_casks, try_except, bind, subprocess_run, ret.
  destruct (subprocess_outcome H h _ 300) as [rc so se|e].
  - eexists. split; [reflexivity|]. split; [reflexivity|].
    split; [reflexivity|]. split; [reflexivity|].
    eexists. split; [reflexivity|].
    destruct (rc =? 0)%Z; split; auto using take_length, take_prefix.
  - eexists. repeat split.
Qed.

(** ** What the server never runs *)

Lemma well_behaved_ret {A : Type} (a : A) : well_behaved (ret a).
Proof. intros h. exists []. cbn. now rewrite app_nil_r. Qed.

Lemma well_behaved_raise {A : Type} (e : exn) : well_behaved (@raise A e).
Proof. intros h. exists []. cbn. now rewrite app_nil_r. Qed.

Lemma well_behaved_lift {A : Type} (r : res A) : well_behaved (lift r).
Proof. intros h. exists []. cbn. now rewrite app_nil_r. Qed.

Lemma well_behaved_bind {A B : Type} (c : M A) (k : A -> M B) :
  well_behaved c -> (forall a, well_behaved (k a)) -> well_behaved (bind c k).
Proof.
  intros Hc Hk h. unfold bind.
  destruct (Hc h) as (added & Hsnd & Hall).
  destruct (c h) as [[a|e] h1]; cbn [snd] in Hsnd; subst h1.
  - destruct (Hk a (h ++ added)%list) as (added' & -> & Hall').
    exists (added ++ added')%list. rewrite app_assoc. split; [reflexivity|].
    now apply Forall_app.
  - now exists added.
Qed.

Lemma well_behaved_try {A : Type} (c : M A) (handler : exn -> M A) :
  well_behaved c -> (forall e, well_behaved (handler e)) ->
  well_behaved (try_except c handler).
Proof.
  intros Hc Hh h. unfold try_except.
  destruct (Hc h) as (added & Hsnd & Hall).
  destruct (c h) as [[a|e] h1]; cbn [snd] in Hsnd; subst h1.
  - now exists added.
  - destruct (Hh e (h ++ added)%list) as (added' & -> & Hall').
    exists (added ++ added')%list. rewrite app_assoc. split; [reflexivity|].
    now apply Forall_app.
Qed.

Lemma well_behaved_run (program : string) (arguments : list string)
  (timeout : Z) :
  In program known_programs -> In timeout [5; 30; 60; 300]%Z ->
  well_behaved (subprocess_run H (program :: arguments) timeout).
Proof.
  intros Hprog Htime h. unfold subprocess_run.
  exists [Run (program :: arguments) timeout
              (subprocess_outcome H h (program :: arguments) timeout)].
  split.
  - destruct (subprocess_outcome H h _ timeout); reflexivity.
  - constructor; [|constructor]. split; [|exact Htime].
    now exists program, arguments.
Qed.

Lemma well_behaved_warning (msg : string) : well_behaved (logger_warning msg).
Proof. intros h. exists [Warn msg]. split; [reflexivity|]. now repeat constructor. Qed.

Lemma registered_path_known (name : string) (c : config) :
  In (name, c) CLI_CONFIG -> In (path c) known_programs.
Proof.
  intros Hin. unfold known_programs. apply in_or_app. left.
  apply in_map_iff. now exists (name, c).
Qed.

Lemma CLI_CONFIG_at_known (name : string) (c : config) :
  CLI_CONFIG_at name = Ok c -> In (path c) known_programs.
Proof.
  unfold CLI_CONFIG_at. destruct (lookup name CLI_CONFIG) as [c'|] eqn:E;
    [|discriminate].
  intros [= <-]. apply (registered_path_known name). now apply lookup_Some_In.
Qed.

Lemma get_brew_path_known : In (get_brew_path H) known_programs.
Proof.
  unfold get_brew_path, known_programs. apply in_or_app. right.
  destruct (String.eqb (platform_machine H) "arm64"); cbn; auto.
Qed.

Lemma run_cli_well_behaved (program : string) (arguments : list string)
  (timeout : Z) :
  In program known_programs -> In timeout [5; 30; 60; 300]%Z ->
  well_behaved (run_cli H (program :: arguments) timeout).
Proof.
  intros Hprog Htime. unfold run_cli.
  apply well_behaved_try.
  - apply well_behaved_bind; [now apply well_behaved_run|].
    intros [[rc so] se]. apply well_behaved_bind.
    + apply well_behaved_try.
      * destruct (truthy (VStr (strip so)));
          [apply well_behaved_lift | apply well_behaved_ret].
      * intros e. destruct (exn_cls e);
          first [apply well_behaved_ret | apply well_behaved_raise].
    + intros data. apply well_behaved_ret.
  - intros e. destruct (exn_cls e); apply well_behaved_ret.
Qed.

Lemma pass_through_well_behaved (name args : string) :
  well_behaved
    (config <- lift (CLI_CONFIG_at name) ;;
     let cmd := ([path config] ++ split args)%list in
     result <- run_cli H cmd 60 ;;
     ret (json_dumps H (Some 2) result)).
Proof.
  intros h. unfold bind at 1. unfold lift at 1.
  destruct (CLI_CONFIG_at name) as [c|e] eqn:E.
  - apply (well_behaved_bind (run_cli H ([path c] ++ split args)%list 60)).
    + apply run_cli_well_behaved;
        [now apply (CLI_CONFIG_at_known name) | cbn; auto].
    + intros result. apply well_behaved_ret.
  - exists []. cbn. now rewrite app_nil_r.
Qed.

Lemma cli_help_well_behaved (cli : string) (subcommand : option string) :
  well_behaved (cli_help H cli subcommand).
Proof.
  unfold cli_help. destruct (negb (in_CLI_CONFIG cli));
    [apply well_behaved_ret|].
  intros h. unfold bind at 1. unfold lift at 1.
  destruct (CLI_CONFIG_at cli) as [c|e] eqn:E.
  - assert (Hcmd : exists arguments,
               (match subcommand with
                | Some sub =>
                    if truthy (VStr sub) then ([path c] ++ split sub)%list
                    else [path c]
                | None => [path c]
                end ++ ["--help"])%list = path c :: arguments).
    { destruct subcommand as [sub|]; [destruct (truthy (VStr sub))|];
        eexists; reflexivity. }
    destruct Hcmd as [arguments Hcmd]. cbv zeta. rewrite Hcmd.
    apply (well_behaved_bind (run_cli H (path c :: arguments) 60)).
    + apply run_cli_well_behaved;
        [now apply (CLI_CONFIG_at_known cli) | cbn; auto].
    + intros result. apply well_behaved_ret.
  - exists []. cbn. now rewrite app_nil_r.
Qed.

Lemma outdated_call_well_behaved :
  well_behaved
    (subprocess_run H [get_brew_path H; "outdated"; "--cask"; "--greedy"] 30).
Proof. apply well_behaved_run; [apply get_brew_path_known | cbn; auto]. Qed.

Lemma tool_status_of_well_behaved (name : string) (c : config) :
  In (path c) known_programs -> well_behaved (tool_status_of H name c).
Proof.
  intros Hpath. unfold tool_status_of. cbv zeta.
  apply well_behaved_bind.
  - apply well_behaved_try.
    + apply well_behaved_bind;
        [apply well_behaved_run; [exact Hpath | cbn; auto]|].
      intros [[rc so] se]. apply well_behaved_ret.
    + intros e. apply well_behaved_ret.
  - intros [installed_status|missing_status]; [|apply well_behaved_ret].
    apply well_behaved_bind; [|intros; apply well_behaved_ret].
    apply well_behaved_try; [|intros; apply well_behaved_ret].
    apply well_behaved_bind; [apply outdated_call_well_behaved|].
    intros [[rc so] se]. destruct (rc =? 0)%Z; apply well_behaved_ret.
Qed.

Lemma list_tools_status_loop_well_behaved (tools : list (string * config)) :
  Forall (fun nc => In (path (snd nc)) known_programs) tools ->
  forall status, well_behaved (list_tools_status_loop H tools status).
Proof.
  induction 1 as [|[name c] tools Hc _ IH]; intros status;
    cbn [list_tools_status_loop].
  - apply well_behaved_ret.
  - apply well_behaved_bind; [now apply tool_status_of_well_behaved|].
    intros entry. apply IH.
Qed.

Lemma registry_paths_known :
  Forall (fun nc => In (path (snd nc)) known_programs) CLI_CONFIG.
Proof.
  apply Forall_forall. intros [name c] Hin.
  now apply (registered_path_known name).
Qed.

Lemma check_for_updates_well_behaved : well_behaved (check_for_updates H).
Proof.
  unfold check_for_updates. cbv zeta.
  apply well_behaved_bind; [|intros; apply well_behaved_ret].
  apply well_behaved_try.
  - apply well_behaved_bind; [apply outdated_call_well_behaved|].
    intros [[rc so] se]. destruct (rc =? 0)%Z; apply well_behaved_ret.
  - intros e. apply well_behaved_bind;
      [apply well_behaved_warning | intros; apply well_behaved_ret].
Qed.

Lemma update_tools_well_behaved (tools : option (list string)) :
  well_behaved (update_tools H tools).
Proof.
  unfold update_tools. apply well_behaved_bind.
  - assert (Hcheck : well_behaved
              (checked <- check_for_updates H ;;
               check_result <- lift (json_loads H checked) ;;
               listed <- lift (get_default check_result "tools" (VList [])) ;;
               items <- lift (iter listed) ;;
               lift (map_res (fun t => getitem t "cli") items))).
    { apply well_behaved_bind; [apply check_for_updates_well_behaved|].
      intros checked. apply well_behaved_bind; [apply well_behaved_lift|].
      intros check_result. apply well_behaved_bind; [apply well_behaved_lift|].
      intros listed. apply well_behaved_bind; [apply well_behaved_lift|].
      intros items. apply well_behaved_lift. }
    destruct tools as [[|t ts]|]; try exact Hcheck. apply well_behaved_ret.
  - intros tools_to_update. destruct (is_nil tools_to_update);
      [apply well_behaved_ret|].
    apply well_behaved_bind; [apply well_behaved_lift|].
    intros configs. cbv zeta.
    apply well_behaved_bind; [|intros; apply well_behaved_ret].
    unfold upgrade_casks. cbv zeta.
    apply well_behaved_try; [|intros; apply well_behaved_ret].
    apply well_behaved_bind.
    + apply (well_behaved_run (get_brew_path H));
        [apply get_brew_path_known | cbn; auto].
    + intros [[rc so] se]. apply well_behaved_ret.
Qed.

Lemma probe_tools_well_behaved (tools : list (string * config)) :
  Forall (fun nc => In (path (snd nc)) known_programs) tools ->
  forall missing, well_behaved (probe_tools H tools missing).
Proof.
  induction 1 as [|[name c] tools Hc _ IH]; intros missing;
    cbn [probe_tools].
  - apply well_behaved_ret.
  - apply well_behaved_bind; [|intros; apply IH].
    apply well_behaved_try.
    + apply well_behaved_bind; [|intros; apply well_behaved_ret].
      apply well_behaved_run; [exact Hc | cbn; auto].
    + intros e. destruct (exn_cls e);
        first [apply well_behaved_ret | apply well_behaved_raise].
Qed.

Lemma install_missing_tools_well_behaved :
  well_behaved (install_missing_tools H).
Proof.
  unfold install_missing_tools. cbv zeta.
  apply well_behaved_bind;
    [apply probe_tools_well_behaved, registry_paths_known|].
  intros missing. destruct (is_nil missing); [apply well_behaved_ret|].
  apply well_behaved_bind.
  - apply (well_behaved_run (get_brew_path H));
      [apply get_brew_path_known | cbn; auto].
  - intros _. apply well_behaved_bind; [apply well_behaved_lift|].
    intros configs. apply well_behaved_bind; [|intros; apply well_behaved_ret].
    unfold install_casks. cbv zeta.
    apply well_behaved_try; [|intros; apply well_behaved_ret].
    apply well_behaved_bind.
    + apply (well_behaved_run (get_brew_path H));
        [apply get_brew_path_known | cbn; auto].
    + intros [[rc so] se]. apply well_behaved_ret.
Qed.

(** X16: whatever its arguments, whatever the subprocesses do and whether
    it returns or raises, every exposed operation only adds to the history
    warnings and subprocesses that run a registered tool or the package
    source, under a bound of 5, 30, 60 or 300 seconds.  No operation runs a
    program named by its caller, and none runs one without a bound. *)
Theorem operations_run_known_programs :
  (forall cli subcommand, well_behaved (cli_help H cli subcommand))
  /\ (forall args,
        well_behaved (jira_cli H args) /\ well_behaved (slack_cli H args)
        /\ well_behaved (confluence_cli H args)
        /\ well_behaved (newrelic_cli H args)
        /\ well_behaved (google_cli H args))
  /\ (forall text n,
        well_behaved (jira_get_issue H text)
        /\ well_behaved (slack_search_messages H text n)
        /\ well_behaved (confluence_search H text n)
        /\ well_behaved (gmail_search H text n)
        /\ well_behaved (drive_search H text n)
        /\ well_behaved (calendar_today H))
  /\ well_behaved (list_tools_status H)
  /\ well_behaved (check_for_updates H)
  /\ (forall tools, well_behaved (update_tools H tools))
  /\ well_behaved (install_missing_tools H).
Proof.
  split; [exact cli_help_well_behaved|].
  split; [intros args; repeat split; apply pass_through_well_behaved|].
  split; [intros text n; repeat split; apply pass_through_well_behaved|].
  split.
  { unfold list_tools_status.
    apply well_behaved_bind; [|intros; apply well_behaved_ret].
    apply list_tools_status_loop_well_behaved, registry_paths_known. }
  split; [exact check_for_updates_well_behaved|].
  split; [exact update_tools_well_behaved|].
  exact install_missing_tools_well_behaved.
Qed.

End Further.

(** ** Runs of the further properties *)

(** X2 on a host without [cfl]. *)
Lemma run_cli_launch_failure_cfl :
  run_cli Fixtures.without_cfl ["cfl"; "space"; "list"] 60 []
  = (Ok (VDict [ ("success", VBool false);
                 ("error",
                  VStr "CLI not found: [Errno 2] No such file or directory: 'cfl'") ]),
     [ Run ["cfl"; "space"; "list"] 60
           (Failed (Exn FileNotFoundError
                      "[Errno 2] No such file or directory: 'cfl'")) ]).
Proof.
  apply (run_cli_launch_failure Fixtures.without_cfl [] ["cfl"; "space"; "list"] 60
           (Exn FileNotFoundError "[Errno 2] No such file or directory: 'cfl'"));
    [reflexivity | discriminate].
Defined.

(** X3 on a host whose decoder gives up on a deeply nested document. *)
Lemma run_cli_decoder_fault_nested :
  let H := Fixtures.undecodable "[[[[[[[[1]]]]]]]]" in
  exists message,
    fst (run_cli H ["gro"; "drive"; "tree"] 60 [])
    = Ok (VDict [ ("success", VBool false); ("error", VStr message) ])
    /\ (OtherException <> TimeoutExpired -> OtherException <> FileNotFoundError ->
        message = "maximum recursion depth exceeded while decoding a JSON array").
Proof.
  intros H.
  apply (run_cli_decoder_fault H [] ["gro"; "drive"; "tree"] 60 0
           "[[[[[[[[1]]]]]]]]" ""
           (Exn OtherException
                "maximum recursion depth exceeded while decoding a JSON array"));
    [reflexivity | reflexivity | reflexivity | discriminate].
Defined.

(** X4 on a host whose commands print the number one between blanks. *)
Lemma run_cli_truthy_data_one :
  let H := Fixtures.host_of (fun _ => Completed 0 " 1 " "") in
  exists result,
    fst (run_cli H ["slck"; "users"; "list"] 60 []) = Ok result
    /\ field "data" result = Some (VInt 1)
    /\ is_set "output" result = false.
Proof.
  intros H.
  apply (run_cli_truthy_data H [] ["slck"; "users"; "list"] 60 0 " 1 " "" (VInt 1));
    reflexivity.
Defined.

(** X5 on a host whose commands fail with a plain message. *)
Lemma run_cli_raw_output_plain :
  let H := Fixtures.host_of (fun _ => Completed 2 " usage: cfl page " " bad flag ") in
  fst (run_cli H ["cfl"; "page"] 60 [])
  = Ok (VDict [ ("success", VBool false);
                ("exit_code", VInt 2);
                ("data", VNone);
                ("output", VStr "usage: cfl page");
                ("stderr", VStr "bad flag") ]).
Proof.
  intros H.
  apply (run_cli_raw_output H [] ["cfl"; "page"] 60 2
           " usage: cfl page " " bad flag " eq_refl).
  right. right.
  exists (Exn JSONDecodeError "Expecting value"). split; reflexivity.
Defined.


(** X11 on a host without the package source. *)
Lemma check_for_updates_without_brew :
  let H := Fixtures.without_brew in
  let cmd := ["/opt/homebrew/bin/brew"; "outdated"; "--cask"; "--greedy"] in
  let e := Exn FileNotFoundError
               "[Errno 2] No such file or directory: '/opt/homebrew/bin/brew'" in
  check_for_updates H []
  = (Ok (json_dumps H (Some 2)
           (VDict [ ("updates_available", VBool false);
                    ("tools", VList []);
                    ("message", VStr "All tools are up to date") ])),
     [ Run cmd 30 (Failed e);
       Warn "Failed to check cask updates: [Errno 2] No such file or directory: '/opt/homebrew/bin/brew'" ]).
Proof.
  intros H cmd e.
  apply (check_for_updates_source_failure H []).
  intros stdout stderr. discriminate.
Defined.

(** X12 on a listing that names two registered casks, last one first. *)
Lemma check_for_updates_plan_tools_listing :
  let listing :=
    "google-readonly (1.0) != 1.1" ++ String "010" "cfl (0.9.1) != 1.0.0" in
  let H := Fixtures.brew_outdated listing in
  let lines := split_sep "010" (strip listing) in
  exists plan h',
    check_for_updates H []
    = (Ok (json_dumps H (Some 2) (updates_report plan)), h')
    /\ map (field "cli") plan
       = map (fun nc => Some (VStr (fst nc))) (filter (listed lines) CLI_CONFIG)
    /\ (plan = [] <-> forall nc, In nc CLI_CONFIG -> listed lines nc = false).
Proof.
  intros listing H lines.
  exact (check_for_updates_plan_tools H [] listing "" eq_refl).
Defined.

(** The tools of that plan, in the order of [CLI_CONFIG]. *)
Example check_for_updates_plan_order :
  let listing :=
    "google-readonly (1.0) != 1.1" ++ String "010" "cfl (0.9.1) != 1.0.0" in
  map (fun nc => fst nc)
      (filter (listed (split_sep "010" (strip listing))) CLI_CONFIG)
  = ["cfl"; "gro"].
Proof. vm_compute. reflexivity. Qed.

(** X13 on a listing that is the cask name of [slck]. *)
Lemma check_for_updates_bare_name_slck :
  let H := Fixtures.brew_outdated "slack-chat-cli" in
  exists h',
    check_for_updates H []
    = (Ok (json_dumps H (Some 2)
             (updates_report
                [ VDict [ ("cli", VStr "slck");
                          ("cask", VStr "slack-chat-cli");
                          ("current", VStr "unknown");
                          ("latest", VStr "unknown");
                          ("source", VStr "cask") ] ])),
       h').
Proof.
  intros H.
  apply (check_for_updates_bare_name H [] "slack-chat-cli" "" "slck"
           (Config "slck" ["--version"] "--output json" "cask"
                   "open-cli-collective/tap/slack-chat-cli"));
    [reflexivity | cbn; auto | reflexivity].
Defined.

(** X14 on a host where [cfl] is outdated and the report is read back. *)
Lemma update_tools_applies_plan_cfl :
  let plan :=
    [ VDict [ ("cli", VStr "cfl"); ("cask", VStr "cfl");
              ("current", VStr "(0.9.1)"); ("latest", VStr "1.0.0");
              ("source", VStr "cask") ] ] in
  let H := Fixtures.brew_outdated_reading "cfl (0.9.1) != 1.0.0"
             [updates_report plan] in
  exists names casks h1,
    check_for_updates H []
    = (Ok (json_dumps H (Some 2) (updates_report plan)), h1)
    /\ map (field "cli") plan = map (fun n => Some (VStr n)) names
    /\ Forall2 (fun name c => exists config,
                   In (name, config) CLI_CONFIG /\ cask config = c)
               names casks
    /\ match names with
       | [] =>
           update_tools H None []
           = (Ok (json_dumps H None
                    (VDict [ ("message", VStr "No tools to update");
                             ("results", VList []) ])),
              h1)
       | _ :: _ =>
           let cmd := ([get_brew_path H; "upgrade"; "--cask"] ++ casks)%list in
           exists results,
             update_tools H None []
             = (Ok (json_dumps H (Some 2)
                      (VDict [ ("updated", VList (map VStr names));
                               ("results", VList results) ])),
                (h1 ++ [Run cmd 300 (subprocess_outcome H h1 cmd 300)])%list)
       end.
Proof.
  intros plan H.
  apply (update_tools_applies_plan H None [] (or_introl eq_refl)).
  vm_compute. reflexivity.
Defined.

(** The run behind it: one listing, then one upgrade of the cask of [cfl]. *)
Example update_tools_applies_plan_cfl_run :
  let plan :=
    [ VDict [ ("cli", VStr "cfl"); ("cask", VStr "cfl");
              ("current", VStr "(0.9.1)"); ("latest", VStr "1.0.0");
              ("source", VStr "cask") ] ] in
  let H := Fixtures.brew_outdated_reading "cfl (0.9.1) != 1.0.0"
             [updates_report plan] in
  snd (update_tools H None [])
  = [ Run ["/opt/homebrew/bin/brew"; "outdated"; "--cask"; "--greedy"] 30
          (Completed 0 "cfl (0.9.1) != 1.0.0" "");
      Run ["/opt/homebrew/bin/brew"; "upgrade"; "--cask";
           "open-cli-collective/tap/cfl"] 300
          (Completed 0 "cfl (0.9.1) != 1.0.0" "") ].
Proof. vm_compute. reflexivity. Qed.

(** X10 on a host without [cfl]: five probes, and the package source asked
    after each of the four that completed. *)
Example list_tools_status_without_cfl_run :
  let brew := ["/opt/homebrew/bin/brew"; "outdated"; "--cask"; "--greedy"] in
  let found := Completed 0 "" "" in
  snd (list_tools_status Fixtures.without_cfl [])
  = [ Run ["jira-ticket-cli"; "--version"] 5 found; Run brew 30 found;
      Run ["slck"; "--version"] 5 found; Run brew 30 found;
      Run ["cfl"; "--version"] 5
          (Failed (Exn FileNotFoundError
                     "[Errno 2] No such file or directory: 'cfl'"));
      Run ["newrelic-cli"; "--version"] 5 found; Run brew 30 found;
      Run ["gro"; "--version"] 5 found; Run brew 30 found ].
Proof. vm_compute. reflexivity. Qed.
